(** * allianceutils.api.permissions: a shallow embedding

    The three Django REST framework permission policies of
    [allianceutils/api/permissions.py], embedded as Rocq functions:

    - [SimpleDjangoObjectPermissions]: one permission string for every
      request method, checked globally and per object;
    - [GenericDjangoViewsetPermissions]: viewset actions mapped to permission
      templates of the model ('%(app_label)s.add_%(model_name)s'), with a
      memoised merge of class overrides and a memoised set of list actions;
    - [GenericDjangoViewsetWithoutModelPermissions]: the same without a model.

    Python dictionaries are [gmap]s, Python sets are [gset]s, exceptions are
    the left summand of a result, and the attributes the methods memoise on
    [self] and on the viewset class live in an explicit store that survives a
    raised exception, as the attributes of a Python object do. *)

From stdpp Require Import gmap strings list fin_maps.
From Stdlib Require Import Ascii String.

Local Open Scope string_scope.

(** ** Python runtime: exceptions, [assert], [str.lower], [%] *)

Module Py.

(** The exceptions that can leave the methods of this module. [Http404],
    [PermissionDenied] and [NotAuthenticated] are what the host's
    [get_object()] raises; [OutsideModel] marks a run that left the
    fragment of the [%] operator embedded below. *)
Inductive exn : Type :=
| AssertionError (msg : string)
| AttributeError (attr : string)
| KeyError (key : string)
| ValueError (msg : string)
| ImproperlyConfigured (msg : string)
| Http404
| PermissionDenied
| NotAuthenticated
| OutsideModel (what : string).

#[global] Instance exn_eq_dec : EqDecision exn.
Proof. solve_decision. Defined.

(** The outcome of a call: an exception or a value. *)
Definition result (A : Type) : Type := exn + A.

(** The interpreter: [__debug__] is [True] unless Python runs with [-O]. *)
Record Interpreter := { debug__ : bool }.

Definition default_interpreter : Interpreter := {| debug__ := true |}.

(** [assert cond, msg] is [if __debug__: if not cond: raise AssertionError(msg)]. *)
Definition py_assert (py : Interpreter) (cond : bool) (msg : string) : result unit :=
  if debug__ py && negb cond then inl (AssertionError msg) else inr tt.

(** [str.lower] on ASCII letters. A string whose lowering is one of
    'header', 'get', 'post' consists of ASCII letters only, so this is all
    [get_list_actions] can observe of [lower]. *)
Definition lower_ascii (c : ascii) : ascii :=
  let n := nat_of_ascii c in
  if (65 <=? n)%nat && (n <=? 90)%nat then ascii_of_nat (n + 32) else c.

Fixpoint lower (s : string) : string :=
  match s with
  | EmptyString => EmptyString
  | String c s' => String (lower_ascii c) (lower s')
  end.

(** [str(action)] for an action that is [None] or a string. *)
Definition str_of_action (a : option string) : string :=
  match a with None => "None" | Some s => s end.

(** *** The [%] operator with a dictionary on the right

    [perm % kwargs] as CPython's [PyUnicode_Format] runs it when [kwargs] is a
    dict of strings, for the conversions the permission templates use:
    literal text, [%%] and [%(key)s]. The scanner is CPython's: after [%(]
    it skips over balanced parentheses to find the key, looks the key up at
    once (a missing key raises [KeyError] before the conversion character is
    read), then reads the conversion. A format that stops after [%] or
    after [%(key)] raises [ValueError('incomplete format')], one that stops
    inside the key [ValueError('incomplete format key')]. Flags, widths,
    precisions, conversions other than [s] and a [%] not followed by [(]
    or [%] are outside the fragment. *)
Inductive fmt_state : Type :=
| Text
| Percent
| Key (pcount : nat) (key : string)
| Conversion (value : string).

Fixpoint snoc (s : string) (c : ascii) : string :=
  match s with
  | EmptyString => String c ""
  | String d s' => String d (snoc s' c)
  end.

Definition emit (c : ascii) (r : result string) : result string :=
  match r with inl e => inl e | inr s => inr (String c s) end.

Definition emits (v : string) (r : result string) : result string :=
  match r with inl e => inl e | inr s => inr (v ++ s) end.

Section Format.
(** [kwargs.get]: the dictionary on the right of [%]. *)
Variable getitem : string -> option string.

Fixpoint format_from (st : fmt_state) (fmt : string) : result string :=
  match fmt with
  | EmptyString =>
      match st with
      | Text => inr ""
      | Percent => inl (ValueError "incomplete format")
      | Key _ _ => inl (ValueError "incomplete format key")
      | Conversion _ => inl (ValueError "incomplete format")
      end
  | String c rest =>
      match st with
      | Text =>
          if Ascii.eqb c "%" then format_from Percent rest
          else emit c (format_from Text rest)
      | Percent =>
          if Ascii.eqb c "%" then emit "%" (format_from Text rest)
          else if Ascii.eqb c "(" then format_from (Key 1 "") rest
          else inl (OutsideModel "conversion without a mapping key")
      | Key pcount key =>
          if Ascii.eqb c ")" then
            match pcount with
            | 0 | 1 =>
                match getitem key with
                | None => inl (KeyError key)
                | Some v => format_from (Conversion v) rest
                end
            | S n => format_from (Key n (snoc key c)) rest
            end
          else if Ascii.eqb c "(" then format_from (Key (S pcount) (snoc key c)) rest
          else format_from (Key pcount (snoc key c)) rest
      | Conversion v =>
          if Ascii.eqb c "s" then emits v (format_from Text rest)
          else inl (OutsideModel "flags, width, precision or a conversion other than s")
      end
  end.

Definition percent_format (fmt : string) : result string := format_from Text fmt.
End Format.

End Py.

Import Py.

(** ** The host framework: what Django and the REST framework supply *)

Module Host.

(** [request.user]: [has_perm(perm, obj=None)] and
    [has_perms(perm_list, obj=None)]; [None] for [obj] is the global check. *)
Record User (Obj : Type) := {
  has_perm : string -> option Obj -> bool;
  has_perms : list string -> option Obj -> bool;
}.
Arguments has_perm {Obj} _ _ _.
Arguments has_perms {Obj} _ _ _.

(** Django's own users answer [has_perms] with
    [all(self.has_perm(perm, obj) for perm in perm_list)]. *)
Definition django_user {Obj} (has_perm : string -> option Obj -> bool) : User Obj :=
  {| has_perm := has_perm;
     has_perms := fun perm_list obj => forallb (fun perm => has_perm perm obj) perm_list |}.

Record Request (Obj : Type) := {
  method : string;
  user : User Obj;
}.
Arguments method {Obj} _.
Arguments user {Obj} _.

(** [django.conf.settings]. *)
Record Settings := { DEBUG : bool }.

(** [model_cls._meta] and the queryset that carries the model. *)
Record Options := { app_label : string; model_name : string }.
Record Model := { _meta : Options }.
Record QuerySet := { model : Model }.

(** An attribute of the viewset class as [get_list_actions] reads it:
    [getattr(method, 'bind_to_methods', None)], the keys of
    [method.mapping] when the attribute exists, and
    [getattr(method, 'detail', None)]. *)
Record Method := {
  bind_to_methods : option (list string);
  mapping : option (list string);
  detail : option bool;
}.

(** A view of [PermissionRequiredAPIMixin]. *)
Record View := { permission_required : string }.

(** A viewset. [dir_class] is [dir(viewset.__class__)] with the attribute
    each name resolves to; [action] is [None] when the viewset has no
    [action] attribute and [Some None] when the attribute is [None];
    [get_object] is the outcome of the host's [get_object()], which
    returns the object or raises. *)
Record ViewSet (Obj : Type) := {
  dir_class : list (string * Method);
  action : option (option string);
  get_queryset : QuerySet;
  get_object : result Obj;
}.
Arguments dir_class {Obj} _.
Arguments action {Obj} _.
Arguments get_queryset {Obj} _.
Arguments get_object {Obj} _.

(** [viewset.action = a]. *)
Definition set_action {Obj} (viewset : ViewSet Obj) (a : option string) : ViewSet Obj :=
  {| dir_class := dir_class viewset;
     action := Some a;
     get_queryset := get_queryset viewset;
     get_object := get_object viewset |}.

(** [request.method == 'OPTIONS' and settings.DEBUG]. *)
Definition options_in_debug {Obj} (settings : Settings) (request : Request Obj) : bool :=
  bool_decide (method request = "OPTIONS") && DEBUG settings.

End Host.

Import Host.

(** ** SimpleDjangoObjectPermissions *)

Module SimpleDjangoObjectPermissions.

Definition both_true_message : string :=
  "Object level and global permissions shouldn't both return True. " ++
  "This may indicate a potential security issue with your permissions.".

Definition has_permission {Obj} (request : Request Obj) (view : View) : bool :=
  has_perm (user request) (permission_required view) None.

Definition has_object_permission {Obj}
    (py : Interpreter) (request : Request Obj) (view : View) (obj : Obj) : result bool :=
  match
    py_assert py
      (negb (has_perm (user request) (permission_required view) (Some obj)
             && has_perm (user request) (permission_required view) None))
      both_true_message
  with
  | inl e => inl e
  | inr _ =>
      inr (has_perm (user request) (permission_required view) (Some obj)
           || has_perm (user request) (permission_required view) None)
  end.

End SimpleDjangoObjectPermissions.

(** ** Methods that read and write attributes: a store that outlives a raise *)

Module Run.

(** A method body over a store [S]: it ends by returning or raising, and
    the store it leaves is there in both cases. *)
Definition M (S A : Type) : Type := S -> result A * S.

Definition ret {S A} (a : A) : M S A := fun st => (inr a, st).
Definition raise {S A} (e : exn) : M S A := fun st => (inl e, st).

Definition bind {S A B} (c : M S A) (k : A -> M S B) : M S B :=
  fun st =>
    match c st with
    | (inl e, st') => (inl e, st')
    | (inr a, st') => k a st'
    end.

Definition gets {S A} (f : S -> A) : M S A := fun st => (inr (f st), st).
Definition modify {S} (f : S -> S) : M S unit := fun st => (inr tt, f st).

(** A pure computation that may raise, run inside a method. *)
Definition lift {S A} (r : result A) : M S A := fun st => (r, st).

(** [try: r  except KeyError: raise e]. *)
Definition except_KeyError {A} (r : result A) (e : exn) : result A :=
  match r with
  | inl (KeyError _) => inl e
  | other => other
  end.

(** [[f(x) for x in xs]], left to right, stopping at the first raise. *)
Fixpoint comprehension {A B} (f : A -> result B) (xs : list A) : result (list B) :=
  match xs with
  | [] => inr []
  | x :: xs' =>
      match f x with
      | inl e => inl e
      | inr y =>
          match comprehension f xs' with
          | inl e => inl e
          | inr ys => inr (y :: ys)
          end
      end
  end.

End Run.

Import Run.

Notation "x <- c ;; k" := (bind c (fun x => k))
  (at level 100, c at next level, right associativity).
Notation "c ;;; k" := (bind c (fun _ => k))
  (at level 100, right associativity).

(** ** GenericDjangoViewsetPermissions *)

Module GenericDjangoViewsetPermissions.

(** Keys are what [viewset.action] can be: [None] or a string. *)
Definition default_actions_to_perms_map : gmap (option string) (list string) :=
  {[ Some "list" := ["%(app_label)s.view_%(model_name)s"];
     Some "retrieve" := ["%(app_label)s.view_%(model_name)s"];
     Some "create" := ["%(app_label)s.add_%(model_name)s"];
     Some "update" := ["%(app_label)s.change_%(model_name)s"];
     Some "partial_update" := ["%(app_label)s.change_%(model_name)s"];
     Some "destroy" := ["%(app_label)s.delete_%(model_name)s"] ]}.

Definition default_list_routes : list string := ["list"; "create"].

(** The policy class: [actions_to_perms_map] is the attribute a subclass
    may provide, [None] when it provides none. *)
Record Policy := {
  actions_to_perms_map : option (gmap (option string) (list string));
}.

(** What the methods memoise: [self._saved_actions_to_perms_map] ([None]
    after [__init__]), [viewset_class._saved_permission_list_actions]
    ([None] while the class has no such attribute), and how many times
    [viewset.get_object()] has been invoked. *)
Record Store := {
  _saved_actions_to_perms_map : option (gmap (option string) (list string));
  _saved_permission_list_actions : option (gset string);
  get_object_calls : nat;
}.

Definition __init__ (st : Store) : Store :=
  {| _saved_actions_to_perms_map := None;
     _saved_permission_list_actions := _saved_permission_list_actions st;
     get_object_calls := get_object_calls st |}.

Definition set_saved_actions_to_perms_map
    (m : gmap (option string) (list string)) (st : Store) : Store :=
  {| _saved_actions_to_perms_map := Some m;
     _saved_permission_list_actions := _saved_permission_list_actions st;
     get_object_calls := get_object_calls st |}.

Definition set_saved_permission_list_actions (s : gset string) (st : Store) : Store :=
  {| _saved_actions_to_perms_map := _saved_actions_to_perms_map st;
     _saved_permission_list_actions := Some s;
     get_object_calls := get_object_calls st |}.

Definition count_get_object (st : Store) : Store :=
  {| _saved_actions_to_perms_map := _saved_actions_to_perms_map st;
     _saved_permission_list_actions := _saved_permission_list_actions st;
     get_object_calls := S (get_object_calls st) |}.

(** [getattr(self, 'actions_to_perms_map', {})]. *)
Definition overrides (self : Policy) : gmap (option string) (list string) :=
  default ∅ (actions_to_perms_map self).

(** [default_actions_to_perms_map.copy()] followed by [.update(overrides)]:
    where both have a key, the override wins. *)
Definition merged (self : Policy) : gmap (option string) (list string) :=
  overrides self ∪ default_actions_to_perms_map.

Definition get_actions_to_perms_map (self : Policy)
    : M Store (gmap (option string) (list string)) :=
  saved <- gets _saved_actions_to_perms_map ;;
  match saved with
  | None =>
      modify (set_saved_actions_to_perms_map (merged self)) ;;;
      ret (merged self)
  | Some m => ret m
  end.

Definition kwargs {Obj} (view : ViewSet Obj) : gmap string string :=
  {[ "app_label" := app_label (_meta (model (get_queryset view)));
     "model_name" := model_name (_meta (model (get_queryset view))) ]}.

Definition missing_message (action : option string) : string :=
  "Missing GenericDjangoViewsetPermissions action permission for " ++ str_of_action action.

Definition get_permissions_for_action {Obj}
    (self : Policy) (action : option string) (view : ViewSet Obj) : M Store (list string) :=
  perms_map <- get_actions_to_perms_map self ;;
  lift (except_KeyError
          match perms_map !! action with
          | None => inl (KeyError (str_of_action action))
          | Some perms => comprehension (percent_format (fun k => kwargs view !! k)) perms
          end
          (ImproperlyConfigured (missing_message action))).

(** [all(m.lower() in ('header', 'get', 'post',) for m in http_methods)]. *)
Definition all_without_object (http_methods : list string) : bool :=
  forallb (fun m => bool_decide (lower m ∈ ["header"; "get"; "post"])) http_methods.

(** Truth value of [getattr(method, 'bind_to_methods', None)]. *)
Definition truthy (http_methods : option (list string)) : bool :=
  match http_methods with
  | None | Some [] => false
  | Some (_ :: _) => true
  end.

(** [getattr(method, 'detail', None) is False]. *)
Definition detail_is_False (method : Method) : bool :=
  match detail method with Some false => true | _ => false end.

(** One turn of [for methodname in dir(viewset_class)]. *)
Definition scan (acc : gset string) (entry : string * Method) : gset string :=
  let '(methodname, method) := entry in
  let http_methods := bind_to_methods method in
  let acc :=
    if truthy http_methods && all_without_object (default [] http_methods) then
      if detail_is_False method then acc ∪ {[ methodname ]} else acc
    else acc in
  match mapping method with
  | Some keys =>
      if negb (truthy http_methods) then
        if all_without_object keys then
          if detail_is_False method then acc ∪ {[ methodname ]} else acc
        else acc
      else acc
  | None => acc
  end.

Definition list_actions_of_class (dir_class : list (string * Method)) : gset string :=
  foldl scan (list_to_set default_list_routes) dir_class.

Definition get_list_actions {Obj} (viewset : ViewSet Obj) : M Store (gset string) :=
  saved <- gets _saved_permission_list_actions ;;
  match saved with
  | None =>
      modify (set_saved_permission_list_actions (list_actions_of_class (dir_class viewset))) ;;;
      ret (list_actions_of_class (dir_class viewset))
  | Some s => ret s
  end.

(** [action not in list_actions]: [None] is in no set of names. *)
Definition not_in (action : option string) (list_actions : gset string) : bool :=
  match action with
  | None => true
  | Some a => bool_decide (a ∉ list_actions)
  end.

(** [viewset.get_object()], counted. *)
Definition call_get_object {Obj} (viewset : ViewSet Obj) : M Store Obj :=
  modify count_get_object ;;;
  lift (get_object viewset).

(** [viewset.action], which raises when the attribute is missing. *)
Definition getattr_action {Obj} (viewset : ViewSet Obj) : result (option string) :=
  match action viewset with
  | None => inl (AttributeError "action")
  | Some a => inr a
  end.

Definition has_permission {Obj}
    (settings : Settings) (self : Policy) (request : Request Obj) (viewset : ViewSet Obj)
    : M Store bool :=
  let action := default None (action viewset) in
  if options_in_debug settings request then ret true
  else
    perms <- get_permissions_for_action self action viewset ;;
    if has_perms (user request) perms None then ret true
    else
      list_actions <- get_list_actions viewset ;;
      if not_in action list_actions then
        call_get_object viewset ;;;
        ret true
      else ret false.

Definition has_object_permission {Obj}
    (settings : Settings) (self : Policy) (request : Request Obj) (viewset : ViewSet Obj)
    (obj : Obj) : M Store bool :=
  action <- lift (getattr_action viewset) ;;
  if options_in_debug settings request then ret true
  else
    perms <- get_permissions_for_action self action viewset ;;
    ret (has_perms (user request) perms (Some obj)).

End GenericDjangoViewsetPermissions.

(** ** GenericDjangoViewsetWithoutModelPermissions *)

Module GenericDjangoViewsetWithoutModelPermissions.

(** The policy class: [actions_to_perms_map] is [{}] unless a subclass
    provides one. *)
Record Policy := {
  actions_to_perms_map : gmap (option string) (list string);
}.

Definition base_class : Policy := {| actions_to_perms_map := ∅ |}.

Record Store := {
  _saved_actions_to_perms_map : option (gmap (option string) (list string));
}.

Definition __init__ : Store := {| _saved_actions_to_perms_map := None |}.

Definition get_actions_to_perms_map (self : Policy)
    : M Store (gmap (option string) (list string)) :=
  saved <- gets _saved_actions_to_perms_map ;;
  match saved with
  | None =>
      modify (fun _ => {| _saved_actions_to_perms_map := Some (actions_to_perms_map self) |}) ;;;
      ret (actions_to_perms_map self)
  | Some m => ret m
  end.

Definition missing_message (action : option string) : string :=
  "Missing GenericDjangoViewsetWithoutModelPermissions action permission for "
    ++ str_of_action action.

Definition get_permissions_for_action (self : Policy) (action : option string)
    : M Store (list string) :=
  perms_map <- get_actions_to_perms_map self ;;
  lift (except_KeyError
          match perms_map !! action with
          | None => inl (KeyError (str_of_action action))
          | Some perms => comprehension (fun perm => inr perm) perms
          end
          (ImproperlyConfigured (missing_message action))).

Definition has_permission {Obj}
    (self : Policy) (request : Request Obj) (viewset : ViewSet Obj) : M Store bool :=
  match default None (action viewset) with
  | None => ret true
  | Some a =>
      perms <- get_permissions_for_action self (Some a) ;;
      if has_perms (user request) perms None then ret true else ret false
  end.

Definition has_object_permission {Obj}
    (self : Policy) (request : Request Obj) (viewset : ViewSet Obj) (obj : Obj)
    : M Store bool :=
  action <- lift (match action viewset with
                  | None => inl (AttributeError "action")
                  | Some a => inr a
                  end) ;;
  perms <- get_permissions_for_action self action ;;
  ret (has_perms (user request) perms (Some obj)).

End GenericDjangoViewsetWithoutModelPermissions.

Module Simple := SimpleDjangoObjectPermissions.
Module Generic := GenericDjangoViewsetPermissions.
Module Bare := GenericDjangoViewsetWithoutModelPermissions.

(** ** Permission templates as the specification describes them

    A template of the default map has the shape
    [{namespace}.{verb}_{typeName}]: literal text and the two fields of the
    resource. [render] writes such a template in Python's [%] syntax, as the
    source spells it; [substitute] is the string the specification expects
    for a resource, computed without any formatting machinery. *)

Module Template.

Inductive piece : Type :=
| Lit (text : string)
| Namespace
| TypeName.

(** A literal [%] is written [%%] in a format string. *)
Fixpoint escape (text : string) : string :=
  match text with
  | EmptyString => EmptyString
  | String c rest =>
      if Ascii.eqb c "%" then String "%" (String "%" (escape rest))
      else String c (escape rest)
  end.

Definition render_piece (p : piece) : string :=
  match p with
  | Lit text => escape text
  | Namespace => "%(app_label)s"
  | TypeName => "%(model_name)s"
  end.

Definition render (t : list piece) : string :=
  foldr (fun p rest => render_piece p ++ rest) "" t.

Definition substitute_piece (namespace type_name : string) (p : piece) : string :=
  match p with
  | Lit text => text
  | Namespace => namespace
  | TypeName => type_name
  end.

Definition substitute (namespace type_name : string) (t : list piece) : string :=
  foldr (fun p rest => substitute_piece namespace type_name p ++ rest) "" t.

(** The six entries of the default map, as templates. *)
Definition perm (verb : string) : list piece :=
  [Namespace; Lit ("." ++ verb ++ "_"); TypeName].

Definition default_templates : gmap (option string) (list (list piece)) :=
  {[ Some "list" := [perm "view"];
     Some "retrieve" := [perm "view"];
     Some "create" := [perm "add"];
     Some "update" := [perm "change"];
     Some "partial_update" := [perm "change"];
     Some "destroy" := [perm "delete"] ]}.

End Template.

(** ** Stores the methods can meet

    A store is consistent with a policy and a viewset when each memoised
    attribute is either unset or holds what the method that sets it computes.
    [__init__] gives such a map attribute and every method keeps it so. The
    list actions are consistent as long as no class the viewset class
    inherits from was scanned before it (see [ClassAttributes]); the
    properties of [has_permission] that depend on the list actions are
    therefore stated for the set [get_list_actions] returns, whatever the
    store holds. *)

Definition map_memo_ok (self : Generic.Policy) (st : Generic.Store) : Prop :=
  Generic._saved_actions_to_perms_map st = None
  ∨ Generic._saved_actions_to_perms_map st = Some (Generic.merged self).

Definition list_memo_ok {Obj} (viewset : ViewSet Obj) (st : Generic.Store) : Prop :=
  Generic._saved_permission_list_actions st = None
  ∨ Generic._saved_permission_list_actions st
    = Some (Generic.list_actions_of_class (dir_class viewset)).

Definition generic_consistent {Obj}
    (self : Generic.Policy) (viewset : ViewSet Obj) (st : Generic.Store) : Prop :=
  map_memo_ok self st ∧ list_memo_ok viewset st.

Definition bare_consistent (self : Bare.Policy) (st : Bare.Store) : Prop :=
  Bare._saved_actions_to_perms_map st = None
  ∨ Bare._saved_actions_to_perms_map st = Some (Bare.actions_to_perms_map self).

(** The store after the permission lookup, and after the list actions were
    fetched as well. *)
Definition after_lookup (self : Generic.Policy) (st : Generic.Store) : Generic.Store :=
  Generic.set_saved_actions_to_perms_map (Generic.merged self) st.

Definition after_list_actions {Obj}
    (self : Generic.Policy) (viewset : ViewSet Obj) (st : Generic.Store) : Generic.Store :=
  Generic.set_saved_permission_list_actions
    (Generic.list_actions_of_class (dir_class viewset)) (after_lookup self st).

(** A store in which nothing is memoised yet and [get_object()] was never
    invoked: a new policy instance meeting a viewset class for the first time. *)
Definition fresh_store : Generic.Store :=
  {| Generic._saved_actions_to_perms_map := None;
     Generic._saved_permission_list_actions := None;
     Generic.get_object_calls := 0 |}.

(** ** Concrete principals, views and viewsets

    Objects are numbered. [grants_everything] answers every check, scoped
    or global, with [True], as a rule that ignores [obj] does; [owner_of pk]
    holds every permission on object [pk] and none globally; [nobody] holds
    nothing. *)
Definition grants_everything : User nat := django_user (fun _ _ => true).
Definition owner_of (pk : nat) : User nat :=
  django_user (fun _ obj => match obj with Some k => bool_decide (k = pk) | None => false end).
Definition nobody : User nat := django_user (fun _ _ => false).
Definition a_view : View := {| permission_required := "my_module.my_permission" |}.
Definition get_by (u : User nat) : Request nat := {| method := "GET"; user := u |}.

Definition blog_post : QuerySet :=
  {| model := {| _meta := {| app_label := "blog"; model_name := "post" |} |} |}.

(** A [ModelViewSet] over blog posts with no extra routes, serving [a]. *)
Definition post_viewset (a : option string) (found : result nat) : ViewSet nat :=
  {| dir_class := []; action := Some a; get_queryset := blog_post; get_object := found |}.

(** A route that [get_list_actions] adds: marked [detail=False], and
    either bound (non-empty [bind_to_methods]) to verbs that all pass the
    test, or, with no truthy [bind_to_methods], carrying a [mapping] whose
    keys all pass it. *)
Definition qualifies (method : Method) : bool :=
  Generic.detail_is_False method
  && ((Generic.truthy (bind_to_methods method)
       && Generic.all_without_object (default [] (bind_to_methods method)))
      || (negb (Generic.truthy (bind_to_methods method))
          && match mapping method with
             | Some keys => Generic.all_without_object keys
             | None => false
             end)).

(** [@list_route(methods=[verb])] before REST framework 3.9 and
    [@action(detail=False, methods=[verb])] from 3.9 on. *)
Definition list_route (verbs : list string) : Method :=
  {| bind_to_methods := Some verbs; mapping := None; detail := Some false |}.
Definition action_route (verbs : list string) : Method :=
  {| bind_to_methods := None; mapping := Some verbs; detail := Some false |}.

(** A viewset class with three extra routes, each bound to one verb. *)
Definition probing_class : list (string * Method) :=
  [("ping", list_route ["head"]); ("recent", list_route ["get"]);
   ("status", action_route ["HEAD"])].

Definition probing_viewset (a : option string) (found : result nat) : ViewSet nat :=
  {| dir_class := probing_class; action := Some a; get_queryset := blog_post;
     get_object := found |}.

Definition no_overrides : Generic.Policy := {| Generic.actions_to_perms_map := None |}.

(** A subclass that names the permission of the two probing routes. *)
Definition probing_policy : Generic.Policy :=
  {| Generic.actions_to_perms_map :=
       Some {[ Some "ping" := ["%(app_label)s.view_%(model_name)s"];
               Some "recent" := ["%(app_label)s.view_%(model_name)s"] ]} |}.

(** A subclass of the model-less policy; its permission string holds a
    [%] conversion, which that policy leaves as written. *)
Definition report_policy : Bare.Policy :=
  {| Bare.actions_to_perms_map := {[ Some "retrieve" := ["reports.%(kind)s_view"] ]} |}.

Definition in_production : Settings := {| DEBUG := false |}.
Definition in_debug : Settings := {| DEBUG := true |}.
Definition options_by {Obj} (u : User Obj) : Request Obj := {| method := "OPTIONS"; user := u |}.

(** The subclass of the docstring: no permission is required to create. *)
Definition create_is_free : Generic.Policy :=
  {| Generic.actions_to_perms_map := Some {[ Some "create" := [] ]} |}.

(** ** The list actions memoised on classes that inherit from each other

    [hasattr(viewset_class, '_saved_permission_list_actions')] and the
    [getattr] behind the final [return] look the attribute up along the
    method resolution order of the class, while the assignment creates it on
    [viewset_class] itself. [own] maps the name of a class to the attribute in
    its own [__dict__]; the [Store] above holds what the lookup finds. *)

Module ClassAttributes.

(** A viewset class: its name, the rest of its [__mro__], and
    [dir(viewset_class)] with the attribute each name resolves to. *)
Record ViewSetClass := {
  name : string;
  bases : list string;
  attributes : list (string * Method);
}.

Definition mro (cls : ViewSetClass) : list string := name cls :: bases cls.

(** [getattr(cls, '_saved_permission_list_actions')], [None] when
    [hasattr] is false: the first class of the resolution order that has
    the attribute in its own [__dict__]. *)
Fixpoint lookup_along (own : gmap string (gset string)) (classes : list string)
    : option (gset string) :=
  match classes with
  | [] => None
  | c :: rest =>
      match own !! c with
      | Some s => Some s
      | None => lookup_along own rest
      end
  end.

Definition get_list_actions (cls : ViewSetClass) (own : gmap string (gset string))
    : gset string * gmap string (gset string) :=
  match lookup_along own (mro cls) with
  | Some s => (s, own)
  | None =>
      (Generic.list_actions_of_class (attributes cls),
       <[ name cls := Generic.list_actions_of_class (attributes cls) ]> own)
  end.

End ClassAttributes.

(** ** allianceutils.serializers.json_orminheritancefix: the version switch *)

Module json_orminheritancefix.

(** Python's ordering of tuples of integers: the first pair of items that
    differ decides; when one tuple is a prefix of the other, the shorter one
    is the smaller. *)
Fixpoint tuple_lt (x y : list Z) : bool :=
  match x, y with
  | _, [] => false
  | [], _ :: _ => true
  | a :: x', b :: y' => if bool_decide (a = b) then tuple_lt x' y' else bool_decide (a < b)%Z
  end.

Fixpoint tuple_le (x y : list Z) : bool :=
  match x, y with
  | [], _ => true
  | _ :: _, [] => false
  | a :: x', b :: y' => if bool_decide (a = b) then tuple_le x' y' else bool_decide (a ≤ b)%Z
  end.

(** The module the names [Serializer] and [Deserializer] are imported from. *)
Inductive origin : Type :=
| json_orminheritancefix18
| json_orminheritancefix19
| django_core_serializers_json.

(** What [import allianceutils.serializers.json_orminheritancefix] does:
    raise [Exception(message)], or bind the two names after the listed
    [DeprecationWarning]s. *)
Inductive outcome : Type :=
| Raised (message : string)
| Imported (Serializer Deserializer : origin) (warned : list string).

(** The module body. [VERSION] is [django.VERSION] up to its last integer
    before the release level: the comparisons with pairs end at the second
    item or on the lengths. *)
Definition import_module (VERSION : list Z) : outcome :=
  if tuple_lt VERSION [1; 8]%Z then
    Raised "json_orminheritancefix does not work with django < 1.8"
  else if tuple_le [1; 8]%Z VERSION && tuple_lt VERSION [1; 9]%Z then
    Imported json_orminheritancefix18 json_orminheritancefix18 []
  else if tuple_le [1; 9]%Z VERSION && tuple_lt VERSION [1; 12]%Z then
    Imported json_orminheritancefix19 json_orminheritancefix19 []
  else if tuple_le [1; 12]%Z VERSION && tuple_lt VERSION [2; 1]%Z then
    Raised "json_orminheritancefix has not been tested with django 2.0"
  else if tuple_le [2; 1]%Z VERSION && tuple_lt VERSION [2; 2]%Z then
    Imported django_core_serializers_json django_core_serializers_json
      ["json_orminheritancefix is not needed in django >=2.1 and will be removed"]
  else
    Raised "json_orminheritancefix has not been tested with django > 2.1".

End json_orminheritancefix.

(** ** Further notions the properties below are stated with *)

(** A permission string without any [%]. *)
Fixpoint no_percent (perm : string) : bool :=
  match perm with
  | EmptyString => true
  | String c rest => negb (Ascii.eqb c "%") && no_percent rest
  end.

(** A mapping key without parentheses. *)
Fixpoint no_parenthesis (key : string) : bool :=
  match key with
  | EmptyString => true
  | String c rest => negb (Ascii.eqb c "(") && negb (Ascii.eqb c ")") && no_parenthesis rest
  end.

(** A verb passes the test of [get_list_actions]. *)
Definition passes (verb : string) : Prop := lower verb ∈ ["header"; "get"; "post"].

(** The class of [probing_class] and a subclass that adds a route. *)
Definition probing_parent : ClassAttributes.ViewSetClass :=
  {| ClassAttributes.name := "ProbingViewSet";
     ClassAttributes.bases := ["ModelViewSet"; "object"];
     ClassAttributes.attributes := probing_class |}.

Definition probing_child : ClassAttributes.ViewSetClass :=
  {| ClassAttributes.name := "AuditedViewSet";
     ClassAttributes.bases := ["ProbingViewSet"; "ModelViewSet"; "object"];
     ClassAttributes.attributes := ("audit", list_route ["get"]) :: probing_class |}.

(** A viewset of the subclass, the store it meets when the parent class
    was scanned before it (the lookup along the resolution order finds the
    parent's set), and a policy that names the permission of its routes. *)
Definition audited_viewset (a : option string) (found : result nat) : ViewSet nat :=
  {| dir_class := ClassAttributes.attributes probing_child; action := Some a;
     get_queryset := blog_post; get_object := found |}.

Definition after_parent_scan : Generic.Store :=
  {| Generic._saved_actions_to_perms_map := None;
     Generic._saved_permission_list_actions :=
       Some (Generic.list_actions_of_class probing_class);
     Generic.get_object_calls := 0 |}.

Definition audited_policy : Generic.Policy :=
  {| Generic.actions_to_perms_map :=
       Some {[ Some "audit" := ["%(app_label)s.view_%(model_name)s"];
               Some "recent" := ["%(app_label)s.view_%(model_name)s"] ]} |}.

(** * Properties *)

(** ** Formatting a template *)

Lemma append_cons (c : ascii) (s t : string) : String c s ++ t = String c (s ++ t).
Proof. reflexivity. Qed.

Lemma append_empty_r (s : string) : s ++ "" = s.
Proof. induction s as [|c s IH]; [done|]. by rewrite append_cons, IH. Qed.

Lemma append_assoc_string (s t u : string) : (s ++ t) ++ u = s ++ (t ++ u).
Proof. induction s as [|c s IH]; [done|]. by rewrite !append_cons, IH. Qed.

Section FormatFacts.
Variable getitem : string -> option string.

(** A format that is consumed whole ends in the [Text] state, so whatever
    follows it is formatted from there. *)
Lemma format_from_app (fmt1 fmt2 : string) :
  ∀ st out1,
    format_from getitem st fmt1 = inr out1 →
    format_from getitem st (fmt1 ++ fmt2) = emits out1 (format_from getitem Text fmt2).
Proof.
  induction fmt1 as [|c rest IH]; intros st out1 H.
  - change ("" ++ fmt2) with fmt2.
    destruct st; inversion H; subst.
    destruct (format_from getitem Text fmt2); reflexivity.
  - rewrite append_cons. simpl in *.
    destruct st as [| |pcount key|v].
    + destruct (Ascii.eqb c "%"); [by apply IH|].
      destruct (format_from getitem Text rest) as [e|o] eqn:E; simpl in H; [done|].
      inversion H; subst. rewrite (IH Text o E).
      by destruct (format_from getitem Text fmt2).
    + destruct (Ascii.eqb c "%").
      * destruct (format_from getitem Text rest) as [e|o] eqn:E; simpl in H; [done|].
        inversion H; subst. rewrite (IH Text o E).
        by destruct (format_from getitem Text fmt2).
      * destruct (Ascii.eqb c "("); [by apply IH | done].
    + destruct (Ascii.eqb c ")").
      * destruct pcount as [|[|n]]; try (by apply IH);
          destruct (getitem key); try done; by apply IH.
      * destruct (Ascii.eqb c "("); by apply IH.
    + destruct (Ascii.eqb c "s"); [|done].
      destruct (format_from getitem Text rest) as [e|o] eqn:E; simpl in H; [done|].
      inversion H; subst. rewrite (IH Text o E).
      destruct (format_from getitem Text fmt2); simpl; [done|].
      by rewrite append_assoc_string.
Qed.

Lemma percent_format_escape (text : string) :
  percent_format getitem (Template.escape text) = inr text.
Proof.
  unfold percent_format. induction text as [|c rest IH]; [done|].
  simpl. destruct (Ascii.eqb c "%") eqn:E.
  - apply Ascii.eqb_eq in E. subst c. simpl. by rewrite IH.
  - simpl. rewrite E. by rewrite IH.
Qed.

Hypothesis app_label_bound : ∃ v, getitem "app_label" = Some v.
Hypothesis model_name_bound : ∃ v, getitem "model_name" = Some v.

Lemma percent_format_piece (p : Template.piece) :
  percent_format getitem (Template.render_piece p)
  = inr (Template.substitute_piece
           (default "" (getitem "app_label")) (default "" (getitem "model_name")) p).
Proof.
  destruct p as [text| |]; simpl.
  - apply percent_format_escape.
  - destruct app_label_bound as [v Hv]. unfold percent_format. simpl.
    rewrite Hv. simpl. by rewrite append_empty_r.
  - destruct model_name_bound as [v Hv]. unfold percent_format. simpl.
    rewrite Hv. simpl. by rewrite append_empty_r.
Qed.

(** Python's [%] on a rendered template is the substitution the
    specification describes. *)
Lemma percent_format_render (t : list Template.piece) :
  percent_format getitem (Template.render t)
  = inr (Template.substitute
           (default "" (getitem "app_label")) (default "" (getitem "model_name")) t).
Proof.
  induction t as [|p t IH]; [done|].
  simpl. unfold percent_format in *.
  rewrite (format_from_app _ _ _ _ (percent_format_piece p)).
  by rewrite IH.
Qed.

Lemma comprehension_render (ts : list (list Template.piece)) :
  comprehension (percent_format getitem) (Template.render <$> ts)
  = inr (Template.substitute
           (default "" (getitem "app_label")) (default "" (getitem "model_name")) <$> ts).
Proof.
  induction ts as [|t ts IH]; [done|].
  rewrite !fmap_cons. simpl. rewrite percent_format_render. by rewrite IH.
Qed.
End FormatFacts.

(** The scanner on the template of 'create', and where it raises. *)
Example percent_format_add :
  percent_format (fun k => ({[ "app_label" := "blog"; "model_name" := "post" ]}
                              : gmap string string) !! k)
    "%(app_label)s.add_%(model_name)s" = inr "blog.add_post".
Proof. vm_compute. reflexivity. Qed.

Example percent_format_raises :
  let kwargs k := ({[ "app_label" := "blog"; "model_name" := "post" ]}
                     : gmap string string) !! k in
  percent_format kwargs "%(pk)s" = inl (KeyError "pk")
  ∧ percent_format kwargs "%(app_label" = inl (ValueError "incomplete format key")
  ∧ percent_format kwargs "100%" = inl (ValueError "incomplete format")
  ∧ percent_format kwargs "100%%" = inr "100%".
Proof. vm_compute. repeat split; reflexivity. Qed.

(** ** SimpleDjangoObjectPermissions *)

(** C1: when the object-scoped check and the global check of the required
    permission both return true, [has_object_permission] does not return a
    decision: with assertions enabled (Python's [__debug__], the debug build
    of the specification) it raises [AssertionError]. *)
Theorem simple_both_true_raises {Obj}
    (py : Interpreter) (request : Request Obj) (view : View) (obj : Obj) :
  debug__ py = true →
  has_perm (user request) (permission_required view) (Some obj) = true →
  has_perm (user request) (permission_required view) None = true →
  Simple.has_object_permission py request view obj
  = inl (AssertionError Simple.both_true_message).
Proof.
  intros Hdebug Hscoped Hglobal.
  unfold Simple.has_object_permission, py_assert.
  by rewrite Hdebug, Hscoped, Hglobal.
Qed.

Lemma simple_both_true_raises_witness :
  Simple.has_object_permission default_interpreter (get_by grants_everything) a_view 7
  = inl (AssertionError Simple.both_true_message).
Proof. apply simple_both_true_raises; reflexivity. Defined.

(** Under [python -O] the [assert] statement is compiled out and the same
    request is granted. *)
Lemma simple_both_true_optimized {Obj}
    (request : Request Obj) (view : View) (obj : Obj) :
  has_perm (user request) (permission_required view) (Some obj) = true →
  has_perm (user request) (permission_required view) None = true →
  Simple.has_object_permission {| debug__ := false |} request view obj = inr true.
Proof.
  intros Hscoped Hglobal. unfold Simple.has_object_permission, py_assert.
  by rewrite Hscoped, Hglobal.
Qed.

(** C2: [has_permission] is true exactly when the principal holds the
    required permission globally; and when the scoped and the global check
    are not both true, [has_object_permission] returns a decision, which is
    true exactly when the principal holds the permission globally or for the
    object. *)
Theorem simple_decisions {Obj}
    (py : Interpreter) (request : Request Obj) (view : View) (obj : Obj) :
  (Simple.has_permission request view = true
   ↔ has_perm (user request) (permission_required view) None = true)
  ∧ (¬ (has_perm (user request) (permission_required view) (Some obj) = true
        ∧ has_perm (user request) (permission_required view) None = true) →
     ∃ decision,
       Simple.has_object_permission py request view obj = inr decision
       ∧ (decision = true
          ↔ has_perm (user request) (permission_required view) None = true
            ∨ has_perm (user request) (permission_required view) (Some obj) = true)).
Proof.
  split; [done|].
  intros Hnot. unfold Simple.has_object_permission, py_assert.
  destruct (has_perm _ _ (Some obj)) eqn:Hscoped, (has_perm _ _ None) eqn:Hglobal;
    try (exfalso; apply Hnot; by split);
    rewrite ?andb_false_r; simpl; eexists; (split; [reflexivity|]); intuition congruence.
Qed.

Lemma simple_decisions_witness :
  ¬ (has_perm (owner_of 7) "my_module.my_permission" (Some 7) = true
     ∧ has_perm (owner_of 7) "my_module.my_permission" None = true)
  ∧ ∃ decision,
      Simple.has_object_permission default_interpreter (get_by (owner_of 7)) a_view 7
      = inr decision
      ∧ (decision = true
         ↔ has_perm (owner_of 7) "my_module.my_permission" None = true
           ∨ has_perm (owner_of 7) "my_module.my_permission" (Some 7) = true).
Proof.
  assert (Hnot : ¬ (has_perm (owner_of 7) "my_module.my_permission" (Some 7) = true
                    ∧ has_perm (owner_of 7) "my_module.my_permission" None = true)).
  { intros [_ Hglobal]. vm_compute in Hglobal. discriminate Hglobal. }
  split; [exact Hnot|].
  exact (proj2 (simple_decisions default_interpreter (get_by (owner_of 7)) a_view 7) Hnot).
Defined.

(** ** GenericDjangoViewsetPermissions: the memoised map *)

Lemma set_saved_map_ok (self : Generic.Policy) (st : Generic.Store) :
  map_memo_ok self (Generic.set_saved_actions_to_perms_map (Generic.merged self) st).
Proof. by right. Qed.

Lemma get_actions_to_perms_map_run (self : Generic.Policy) (st : Generic.Store) :
  map_memo_ok self st →
  Generic.get_actions_to_perms_map self st
  = (inr (Generic.merged self),
     Generic.set_saved_actions_to_perms_map (Generic.merged self) st).
Proof.
  intros [H|H]; unfold Generic.get_actions_to_perms_map, bind, gets, modify, ret;
    rewrite H; [done|].
  destruct st; simpl in *. by rewrite H.
Qed.

(** The merged map, key by key. *)
Lemma merged_lookup (self : Generic.Policy) (k : option string) :
  Generic.merged self !! k
  = match Generic.overrides self !! k with
    | Some perms => Some perms
    | None => Generic.default_actions_to_perms_map !! k
    end.
Proof.
  unfold Generic.merged. rewrite lookup_union.
  by destruct (Generic.overrides self !! k), (Generic.default_actions_to_perms_map !! k).
Qed.

(** What [get_permissions_for_action] returns or raises, store aside. *)
Lemma get_permissions_for_action_run {Obj}
    (self : Generic.Policy) (action : option string) (view : ViewSet Obj) (st : Generic.Store) :
  map_memo_ok self st →
  Generic.get_permissions_for_action self action view st
  = (except_KeyError
       match Generic.merged self !! action with
       | None => inl (KeyError (str_of_action action))
       | Some perms => comprehension (percent_format (fun k => Generic.kwargs view !! k)) perms
       end
       (ImproperlyConfigured (Generic.missing_message action)),
     Generic.set_saved_actions_to_perms_map (Generic.merged self) st).
Proof.
  intros H. unfold Generic.get_permissions_for_action, bind.
  by rewrite (get_actions_to_perms_map_run _ _ H).
Qed.

Lemma kwargs_app_label {Obj} (view : ViewSet Obj) :
  Generic.kwargs view !! "app_label" = Some (app_label (_meta (model (get_queryset view)))).
Proof. unfold Generic.kwargs. by rewrite lookup_insert_eq. Qed.

Lemma kwargs_model_name {Obj} (view : ViewSet Obj) :
  Generic.kwargs view !! "model_name" = Some (model_name (_meta (model (get_queryset view)))).
Proof.
  unfold Generic.kwargs. rewrite lookup_insert_ne; [|done]. by rewrite lookup_singleton_eq.
Qed.

(** The default map of the source is the rendering of the six templates. *)
Lemma default_map_is_rendered :
  Generic.default_actions_to_perms_map
  = fmap (M := gmap (option string)) (fmap (M := list) Template.render)
      Template.default_templates.
Proof. vm_compute. reflexivity. Qed.

(** C3: for an action with an entry in the merged map,
    [get_permissions_for_action] returns the entry's templates with the
    model's app label and model name substituted (for the default map, a
    blog post and 'create': ['blog.add_post']); for an action with no entry
    it raises [ImproperlyConfigured]. *)
Theorem generic_permissions_for_action {Obj}
    (self : Generic.Policy) (action : option string) (view : ViewSet Obj) (st : Generic.Store) :
  map_memo_ok self st →
  (∀ templates : list (list Template.piece),
      Generic.merged self !! action = Some (Template.render <$> templates) →
      Generic.get_permissions_for_action self action view st
      = (inr (Template.substitute
                (app_label (_meta (model (get_queryset view))))
                (model_name (_meta (model (get_queryset view)))) <$> templates),
         Generic.set_saved_actions_to_perms_map (Generic.merged self) st))
  ∧ (Generic.merged self !! action = None →
     Generic.get_permissions_for_action self action view st
     = (inl (ImproperlyConfigured (Generic.missing_message action)),
        Generic.set_saved_actions_to_perms_map (Generic.merged self) st))
  ∧ (∀ found,
       fst (Generic.get_permissions_for_action
              no_overrides (Some "create") (post_viewset (Some "create") found) fresh_store)
       = inr ["blog.add_post"]).
Proof.
  intros Hst. split; [|split].
  - intros templates Hentry.
    rewrite (get_permissions_for_action_run _ _ _ _ Hst), Hentry.
    rewrite (comprehension_render (fun k => Generic.kwargs view !! k)).
    + by rewrite kwargs_app_label, kwargs_model_name.
    + eexists. apply kwargs_app_label.
    + eexists. apply kwargs_model_name.
  - intros Hmissing.
    by rewrite (get_permissions_for_action_run _ _ _ _ Hst), Hmissing.
  - intros found. vm_compute. reflexivity.
Qed.

Lemma generic_permissions_for_action_witness :
  map_memo_ok no_overrides fresh_store
  ∧ fst (Generic.get_permissions_for_action
           no_overrides (Some "destroy") (post_viewset (Some "destroy") (inr 7)) fresh_store)
    = inr ["blog.delete_post"]
  ∧ fst (Generic.get_permissions_for_action
           no_overrides (Some "metadata") (post_viewset (Some "metadata") (inr 7)) fresh_store)
    = inl (ImproperlyConfigured
             "Missing GenericDjangoViewsetPermissions action permission for metadata").
Proof.
  assert (Hst : map_memo_ok no_overrides fresh_store) by (by left).
  split; [exact Hst|]. split.
  - destruct (generic_permissions_for_action
                no_overrides (Some "destroy") (post_viewset (Some "destroy") (inr 7))
                fresh_store Hst) as [Hpresent _].
    rewrite (Hpresent [Template.perm "delete"]); [reflexivity|].
    vm_compute. reflexivity.
  - destruct (generic_permissions_for_action
                no_overrides (Some "metadata") (post_viewset (Some "metadata") (inr 7))
                fresh_store Hst) as (_ & Hmissing & _).
    rewrite Hmissing; [reflexivity|]. vm_compute. reflexivity.
Defined.

(** An override whose string names a key that [kwargs] lacks: the
    [KeyError] of [%] is caught by the same [except] clause. *)
Example unknown_key_in_override :
  fst (Generic.get_permissions_for_action
         {| Generic.actions_to_perms_map := Some {[ Some "create" := ["%(pk)s.add"] ]} |}
         (Some "create") (post_viewset (Some "create") (inr 7)) fresh_store)
  = inl (ImproperlyConfigured
           "Missing GenericDjangoViewsetPermissions action permission for create").
Proof. vm_compute. reflexivity. Qed.

(** C4: the merged map gives each key of the override the override's
    value and every other key its default value; a subclass that overrides
    only 'create' leaves the entry of 'destroy' as it was. The merge is what
    a new policy instance computes on first use and returns from then on. *)
Theorem merged_map_overrides (self : Generic.Policy) (st : Generic.Store) :
  let first := Generic.get_actions_to_perms_map self (Generic.__init__ st) in
  fst first = inr (Generic.merged self)
  ∧ Generic.get_actions_to_perms_map self (snd first) = first
  ∧ (∀ k : option string,
       Generic.merged self !! k
       = match Generic.overrides self !! k with
         | Some perms => Some perms
         | None => Generic.default_actions_to_perms_map !! k
         end)
  ∧ Generic.merged create_is_free !! Some "create" = Some []
  ∧ Generic.merged create_is_free !! Some "destroy"
    = Generic.default_actions_to_perms_map !! Some "destroy"
  ∧ Generic.default_actions_to_perms_map !! Some "destroy"
    = Some ["%(app_label)s.delete_%(model_name)s"].
Proof.
  intros first. subst first.
  split; [reflexivity|].
  split; [reflexivity|].
  split; [apply merged_lookup|].
  split; [by rewrite merged_lookup|].
  split; [by rewrite merged_lookup|].
  vm_compute. reflexivity.
Qed.

(** ** GenericDjangoViewsetPermissions: the list actions *)

Lemma scan_qualifies (acc : gset string) (methodname : string) (method : Method) :
  Generic.scan acc (methodname, method)
  = if qualifies method then acc ∪ {[ methodname ]} else acc.
Proof.
  unfold Generic.scan, qualifies.
  destruct (Generic.detail_is_False method), (Generic.truthy (bind_to_methods method)),
    (mapping method) as [keys|];
    simpl; rewrite ?andb_false_r; simpl; try reflexivity;
    try (destruct (Generic.all_without_object _); reflexivity).
Qed.

Lemma elem_of_foldl_scan (dir_class : list (string * Method)) :
  ∀ (acc : gset string) (a : string),
    a ∈ foldl Generic.scan acc dir_class
    ↔ a ∈ acc ∨ ∃ method, (a, method) ∈ dir_class ∧ qualifies method = true.
Proof.
  induction dir_class as [|[methodname method] rest IH]; intros acc a.
  - simpl. split; [by left|]. intros [H|(m & H & _)]; [done|]. by apply elem_of_nil in H.
  - change (foldl Generic.scan acc ((methodname, method) :: rest))
      with (foldl Generic.scan (Generic.scan acc (methodname, method)) rest).
    rewrite IH, scan_qualifies. split.
    + intros [H|(m & Hin & Hq)].
      * destruct (qualifies method) eqn:Hq; [|by left].
        apply elem_of_union in H as [H|H]; [by left|].
        apply elem_of_singleton in H. subst a.
        right. exists method. split; [apply elem_of_cons; by left | done].
      * right. exists m. split; [apply elem_of_cons; by right | done].
    + intros [H|(m & Hin & Hq)].
      * left. destruct (qualifies method); [apply elem_of_union; by left | done].
      * apply elem_of_cons in Hin as [Heq|Hin].
        -- inversion Heq; subst. left. rewrite Hq.
           apply elem_of_union. right. by apply elem_of_singleton.
        -- right. by exists m.
Qed.

(** What the scan computes: the two default routes and every attribute of
    the class that [qualifies]. *)
Lemma elem_of_list_actions_of_class (dir_class : list (string * Method)) (a : string) :
  a ∈ Generic.list_actions_of_class dir_class
  ↔ a = "list" ∨ a = "create"
    ∨ ∃ method, (a, method) ∈ dir_class ∧ qualifies method = true.
Proof.
  unfold Generic.list_actions_of_class. rewrite elem_of_foldl_scan.
  unfold Generic.default_list_routes. rewrite elem_of_list_to_set.
  rewrite !elem_of_cons. split.
  - intros [[H|[H|H]]|H]; auto. by apply elem_of_nil in H.
  - intros [H|[H|H]]; auto.
Qed.

Lemma get_list_actions_run {Obj} (viewset : ViewSet Obj) (st : Generic.Store) :
  list_memo_ok viewset st →
  Generic.get_list_actions viewset st
  = (inr (Generic.list_actions_of_class (dir_class viewset)),
     Generic.set_saved_permission_list_actions
       (Generic.list_actions_of_class (dir_class viewset)) st).
Proof.
  intros [H|H]; unfold Generic.get_list_actions, bind, gets, modify, ret;
    rewrite H; [done|].
  destruct st; simpl in *. by rewrite H.
Qed.


(** ** GenericDjangoViewsetPermissions: [has_permission] step by step *)

Lemma has_permission_run {Obj}
    (settings : Settings) (self : Generic.Policy) (request : Request Obj)
    (viewset : ViewSet Obj) (st : Generic.Store) :
  generic_consistent self viewset st →
  options_in_debug settings request = false →
  Generic.has_permission settings self request viewset st
  = match fst (Generic.get_permissions_for_action
                 self (default None (action viewset)) viewset st) with
    | inl e => (inl e, after_lookup self st)
    | inr perms =>
        if has_perms (user request) perms None then (inr true, after_lookup self st)
        else if Generic.not_in (default None (action viewset))
                  (Generic.list_actions_of_class (dir_class viewset))
             then (match get_object viewset with inl e => inl e | inr _ => inr true end,
                   Generic.count_get_object (after_list_actions self viewset st))
             else (inr false, after_list_actions self viewset st)
    end.
Proof.
  intros [Hmap Hlist] Hbypass.
  unfold Generic.has_permission. rewrite Hbypass.
  unfold bind at 1.
  rewrite (get_permissions_for_action_run _ _ _ _ Hmap). simpl.
  destruct (except_KeyError _ _) as [e|perms]; [done|].
  destruct (has_perms (user request) perms None); [done|].
  unfold bind at 1.
  rewrite get_list_actions_run; [|exact Hlist].
  fold (after_lookup self st). fold (after_list_actions self viewset st).
  destruct (Generic.not_in _ _); [|done].
  unfold bind, Generic.call_get_object, bind, modify, lift, ret.
  by destruct (get_object viewset).
Qed.

(** Consistency is what a new instance starts with and what
    [has_permission] and [has_object_permission] leave behind, whether they
    return or raise. *)
Lemma init_map_memo_ok (self : Generic.Policy) (st : Generic.Store) :
  map_memo_ok self (Generic.__init__ st).
Proof. by left. Qed.

Lemma has_permission_keeps_consistent {Obj}
    (settings : Settings) (self : Generic.Policy) (request : Request Obj)
    (viewset : ViewSet Obj) (st : Generic.Store) :
  generic_consistent self viewset st →
  generic_consistent self viewset
    (snd (Generic.has_permission settings self request viewset st)).
Proof.
  intros Hst. destruct (options_in_debug settings request) eqn:Hbypass.
  - unfold Generic.has_permission. by rewrite Hbypass.
  - rewrite (has_permission_run _ _ _ _ _ Hst Hbypass).
    destruct Hst as [Hmap Hlist].
    destruct (fst _) as [e|perms]; [split; [by right|exact Hlist]|].
    destruct (has_perms _ _ _); [split; [by right|exact Hlist]|].
    destruct (Generic.not_in _ _); split; by right.
Qed.

Lemma has_object_permission_keeps_consistent {Obj}
    (settings : Settings) (self : Generic.Policy) (request : Request Obj)
    (viewset : ViewSet Obj) (obj : Obj) (st : Generic.Store) :
  generic_consistent self viewset st →
  generic_consistent self viewset
    (snd (Generic.has_object_permission settings self request viewset obj st)).
Proof.
  intros Hst. unfold Generic.has_object_permission, Generic.getattr_action, lift.
  unfold bind at 1.
  destruct (action viewset) as [a|]; [|done].
  destruct (options_in_debug settings request); [done|].
  unfold bind. destruct Hst as [Hmap Hlist].
  rewrite (get_permissions_for_action_run _ _ _ _ Hmap).
  destruct (except_KeyError _ _); split; try (by right); exact Hlist.
Qed.

(** A principal who holds the required permissions globally is granted,
    whatever the action and whether or not an object exists: [get_object()]
    is not invoked. *)
Lemma has_permission_global_grant {Obj}
    (settings : Settings) (self : Generic.Policy) (request : Request Obj)
    (viewset : ViewSet Obj) (perms : list string) (st : Generic.Store) :
  generic_consistent self viewset st →
  options_in_debug settings request = false →
  fst (Generic.get_permissions_for_action
         self (default None (action viewset)) viewset st) = inr perms →
  has_perms (user request) perms None = true →
  Generic.has_permission settings self request viewset st = (inr true, after_lookup self st).
Proof.
  intros Hst Hbypass Hperms Hglobal.
  by rewrite (has_permission_run _ _ _ _ _ Hst Hbypass), Hperms, Hglobal.
Qed.

(** The list actions [has_permission] tests the action against are what
    [get_list_actions] returns at the store the request meets: the memoised
    set when there is one, the scan of the class otherwise. Looking up the
    permissions first does not change that set. *)
Lemma get_list_actions_after_lookup {Obj}
    (self : Generic.Policy) (viewset : ViewSet Obj) (st : Generic.Store) :
  fst (Generic.get_list_actions viewset (after_lookup self st))
  = fst (Generic.get_list_actions viewset st)
  ∧ Generic.get_object_calls (snd (Generic.get_list_actions viewset (after_lookup self st)))
    = Generic.get_object_calls st.
Proof.
  unfold Generic.get_list_actions, bind, gets, modify, ret. simpl.
  by destruct (Generic._saved_permission_list_actions st).
Qed.


(** [has_permission] step by step, at any store whose memoised map is
    consistent: nothing is assumed of the memoised list actions. *)
Lemma has_permission_run_at {Obj}
    (settings : Settings) (self : Generic.Policy) (request : Request Obj)
    (viewset : ViewSet Obj) (list_actions : gset string) (st : Generic.Store) :
  map_memo_ok self st →
  options_in_debug settings request = false →
  fst (Generic.get_list_actions viewset st) = inr list_actions →
  Generic.has_permission settings self request viewset st
  = match fst (Generic.get_permissions_for_action
                 self (default None (action viewset)) viewset st) with
    | inl e => (inl e, after_lookup self st)
    | inr perms =>
        if has_perms (user request) perms None then (inr true, after_lookup self st)
        else if Generic.not_in (default None (action viewset)) list_actions
             then (match get_object viewset with inl e => inl e | inr _ => inr true end,
                   Generic.count_get_object
                     (snd (Generic.get_list_actions viewset (after_lookup self st))))
             else (inr false, snd (Generic.get_list_actions viewset (after_lookup self st)))
    end.
Proof.
  intros Hmap Hbypass Hlist.
  unfold Generic.has_permission. rewrite Hbypass.
  unfold bind at 1.
  rewrite (get_permissions_for_action_run _ _ _ _ Hmap). simpl.
  fold (after_lookup self st).
  destruct (except_KeyError _ _) as [e|perms]; [done|].
  destruct (has_perms (user request) perms None); [done|].
  unfold bind at 1.
  rewrite <- (proj1 (get_list_actions_after_lookup self viewset st)) in Hlist.
  destruct (Generic.get_list_actions viewset (after_lookup self st)) as [found st2].
  simpl in Hlist. subst found. simpl.
  destruct (Generic.not_in _ _); [|done].
  unfold bind, Generic.call_get_object, bind, modify, lift, ret.
  by destruct (get_object viewset).
Qed.





(** C7: the list actions computed for a class whose extra routes are all
    marked [detail=False] and bound to one verb each: 'recent', bound to
    'get', is added to 'list' and 'create'; 'ping' and 'status', bound only to
    HEAD, are not, because the verbs are compared with 'header', 'get' and
    'post'. A route bound to the word 'HEADER' would be added. With 'ping'
    left out, a principal without the global permission makes
    [has_permission] invoke [get_object()] on that collection route, where
    for 'recent' it returns false. *)
Theorem head_only_route_is_not_a_list_action :
  fst (Generic.get_list_actions (probing_viewset (Some "ping") (inl Http404)) fresh_store)
  = inr (list_to_set ["list"; "create"; "recent"])
  ∧ ("ping" ∉ Generic.list_actions_of_class probing_class)
  ∧ ("status" ∉ Generic.list_actions_of_class probing_class)
  ∧ ("recent" ∈ Generic.list_actions_of_class probing_class)
  ∧ qualifies (list_route ["head"]) = false
  ∧ qualifies (list_route ["HEADER"]) = true
  ∧ Generic.has_permission in_production probing_policy (get_by nobody)
      (probing_viewset (Some "ping") (inl Http404)) fresh_store
    = (inl Http404,
       Generic.count_get_object
         (after_list_actions probing_policy
            (probing_viewset (Some "ping") (inl Http404)) fresh_store))
  ∧ Generic.has_permission in_production probing_policy (get_by nobody)
      (probing_viewset (Some "recent") (inl Http404)) fresh_store
    = (inr false,
       after_list_actions probing_policy
         (probing_viewset (Some "recent") (inl Http404)) fresh_store).
Proof.
  assert (Hset : Generic.list_actions_of_class probing_class
                 = list_to_set ["list"; "create"; "recent"]).
  { vm_compute. reflexivity. }
  split; [simpl; by rewrite Hset|].
  rewrite Hset.
  split; [apply (bool_decide_unpack _); vm_compute; exact I|].
  split; [apply (bool_decide_unpack _); vm_compute; exact I|].
  split; [apply (bool_decide_unpack _); vm_compute; exact I|].
  split; [vm_compute; reflexivity|].
  split; [vm_compute; reflexivity|].
  split; vm_compute; reflexivity.
Qed.

(** C8: in debug mode an OPTIONS request is granted by [has_permission]
    and, for every action, by [has_object_permission], with the store left
    untouched: no permission is looked up. Outside debug mode an OPTIONS
    request goes through the permission evaluation like any other request:
    [has_permission] raises what the lookup of the action's permissions
    raises, grants when the principal holds them globally, otherwise refuses
    a list action and resolves the object for any other action;
    [has_object_permission] returns what the object-scoped check answers. A
    principal without permissions is refused, and the action of a plain
    OPTIONS request, 'metadata', is unmapped in the default map. *)
Theorem generic_options_bypass {Obj}
    (self : Generic.Policy) (u : User Obj) (viewset : ViewSet Obj)
    (a : option string) (obj : Obj) (list_actions : gset string) (st : Generic.Store) :
  Generic.has_permission in_debug self (options_by u) viewset st = (inr true, st)
  ∧ Generic.has_object_permission in_debug self (options_by u) (set_action viewset a) obj st
    = (inr true, st)
  ∧ (∀ (settings : Settings) (request : Request Obj),
       user request = u →
       options_in_debug settings request = false →
       Generic.has_permission in_production self (options_by u) viewset st
       = Generic.has_permission settings self request viewset st
       ∧ Generic.has_object_permission in_production self (options_by u) viewset obj st
         = Generic.has_object_permission settings self request viewset obj st)
  ∧ (map_memo_ok self st →
     fst (Generic.get_list_actions viewset st) = inr list_actions →
     Generic.has_permission in_production self (options_by u) viewset st
     = match fst (Generic.get_permissions_for_action
                    self (default None (action viewset)) viewset st) with
       | inl e => (inl e, after_lookup self st)
       | inr perms =>
           if has_perms u perms None then (inr true, after_lookup self st)
           else if Generic.not_in (default None (action viewset)) list_actions
                then (match get_object viewset with inl e => inl e | inr _ => inr true end,
                      Generic.count_get_object
                        (snd (Generic.get_list_actions viewset (after_lookup self st))))
                else (inr false,
                      snd (Generic.get_list_actions viewset (after_lookup self st)))
       end
     ∧ Generic.has_object_permission in_production self (options_by u)
         (set_action viewset a) obj st
       = (match fst (Generic.get_permissions_for_action self a viewset st) with
          | inl e => inl e
          | inr perms => inr (has_perms u perms (Some obj))
          end,
          after_lookup self st))
  ∧ (∀ found,
       fst (Generic.has_permission in_production no_overrides (options_by nobody)
              (post_viewset (Some "list") found) fresh_store) = inr false
       ∧ fst (Generic.has_permission in_production no_overrides (options_by grants_everything)
                (post_viewset (Some "metadata") found) fresh_store)
         = inl (ImproperlyConfigured
                  "Missing GenericDjangoViewsetPermissions action permission for metadata")
       ∧ fst (Generic.has_object_permission in_production no_overrides (options_by nobody)
                (post_viewset (Some "retrieve") found) 7 fresh_store) = inr false).
Proof.
  split; [reflexivity|]. split; [reflexivity|].
  split; [|split].
  - intros settings request Huser Hbypass.
    unfold Generic.has_permission, Generic.has_object_permission.
    rewrite Hbypass.
    change (options_in_debug in_production (options_by u)) with false.
    by rewrite Huser.
  - intros Hst Hset. split.
    + by rewrite (has_permission_run_at in_production self (options_by u) viewset
                    list_actions st Hst eq_refl Hset).
    + unfold Generic.has_object_permission, Generic.getattr_action, lift.
      unfold bind at 1. simpl.
      change (options_in_debug in_production (options_by u)) with false. simpl.
      unfold bind, ret.
      rewrite !(get_permissions_for_action_run _ _ _ _ Hst). simpl.
      by destruct (except_KeyError _ _).
  - intros found. vm_compute. repeat split; reflexivity.
Qed.

Lemma generic_options_bypass_witness :
  options_in_debug in_debug (get_by nobody) = false
  ∧ map_memo_ok no_overrides fresh_store
  ∧ Generic.has_permission in_production no_overrides (options_by nobody)
      (post_viewset (Some "metadata") (inr 7)) fresh_store
    = Generic.has_permission in_debug no_overrides (get_by nobody)
        (post_viewset (Some "metadata") (inr 7)) fresh_store
  ∧ fst (Generic.has_permission in_production no_overrides (options_by (owner_of 7))
           (post_viewset (Some "retrieve") (inl PermissionDenied)) fresh_store)
    = inl PermissionDenied.
Proof.
  assert (Hst : map_memo_ok no_overrides fresh_store) by (by left).
  split; [reflexivity|]. split; [exact Hst|]. split.
  - exact (proj1 (proj1 (proj2 (proj2 (generic_options_bypass no_overrides nobody
                                         (post_viewset (Some "metadata") (inr 7)) None 7
                                         ∅ fresh_store)))
                   in_debug (get_by nobody) eq_refl eq_refl)).
  - by rewrite (proj1 (proj1 (proj2 (proj2 (proj2
                  (generic_options_bypass no_overrides (owner_of 7)
                     (post_viewset (Some "retrieve") (inl PermissionDenied))
                     (Some "retrieve") 7 (Generic.list_actions_of_class []) fresh_store))))
                  Hst eq_refl)).
Defined.

(** A viewset without an [action] attribute: [has_object_permission] reads
    [viewset.action] before it looks at the request. *)
Lemma has_object_permission_without_action {Obj}
    (settings : Settings) (self : Generic.Policy) (request : Request Obj)
    (viewset : ViewSet Obj) (obj : Obj) (st : Generic.Store) :
  action viewset = None →
  Generic.has_object_permission settings self request viewset obj st
  = (inl (AttributeError "action"), st).
Proof.
  intros H. unfold Generic.has_object_permission, Generic.getattr_action, bind, lift.
  by rewrite H.
Qed.

(** C10: [None] has no entry in the default map, so when the viewset's
    action is [None] (or the viewset has no action), the request is not an
    OPTIONS request in debug mode, and the class overrides add no entry for
    [None], [has_permission] raises [ImproperlyConfigured]. *)
Theorem generic_action_None_is_unconfigured {Obj}
    (settings : Settings) (self : Generic.Policy) (request : Request Obj)
    (viewset : ViewSet Obj) (st : Generic.Store) :
  map_memo_ok self st →
  options_in_debug settings request = false →
  default None (action viewset) = None →
  Generic.overrides self !! None = None →
  Generic.default_actions_to_perms_map !! None = None
  ∧ Generic.has_permission settings self request viewset st
    = (inl (ImproperlyConfigured
              "Missing GenericDjangoViewsetPermissions action permission for None"),
       after_lookup self st).
Proof.
  intros Hst Hbypass Haction Hoverride.
  split; [reflexivity|].
  unfold Generic.has_permission. rewrite Hbypass, Haction.
  unfold bind at 1.
  rewrite (get_permissions_for_action_run _ _ _ _ Hst).
  by rewrite merged_lookup, Hoverride.
Qed.

Lemma generic_action_None_is_unconfigured_witness :
  map_memo_ok create_is_free fresh_store
  ∧ options_in_debug in_production (options_by nobody) = false
  ∧ Generic.overrides create_is_free !! None = None
  ∧ fst (Generic.has_permission in_production create_is_free (options_by nobody)
           (post_viewset None (inr 7)) fresh_store)
    = inl (ImproperlyConfigured
             "Missing GenericDjangoViewsetPermissions action permission for None").
Proof.
  assert (Hst : map_memo_ok create_is_free fresh_store) by (by left).
  split; [exact Hst|]. split; [reflexivity|]. split; [reflexivity|].
  by rewrite (proj2 (generic_action_None_is_unconfigured in_production create_is_free
                       (options_by nobody) (post_viewset None (inr 7)) fresh_store
                       Hst eq_refl eq_refl eq_refl)).
Defined.

(** ** GenericDjangoViewsetWithoutModelPermissions *)

Lemma comprehension_verbatim (perms : list string) :
  comprehension (fun perm : string => inr perm) perms = inr perms.
Proof. induction perms as [|perm perms IH]; [done|]. simpl. by rewrite IH. Qed.

Lemma bare_get_permissions_for_action_run
    (self : Bare.Policy) (action : option string) (st : Bare.Store) :
  bare_consistent self st →
  Bare.get_permissions_for_action self action st
  = (match Bare.actions_to_perms_map self !! action with
     | Some perms => inr perms
     | None => inl (ImproperlyConfigured (Bare.missing_message action))
     end,
     {| Bare._saved_actions_to_perms_map := Some (Bare.actions_to_perms_map self) |}).
Proof.
  intros H. destruct st as [saved].
  unfold Bare.get_permissions_for_action, Bare.get_actions_to_perms_map,
    bind, gets, modify, ret, lift.
  destruct H as [H|H]; simpl in H; subst saved; simpl;
    (destruct (Bare.actions_to_perms_map self !! action) as [perms|];
     [by rewrite comprehension_verbatim | done]).
Qed.

(** C9: the model-less [has_permission] returns true whenever the action
    is [None] (it takes no settings and does not read the request method);
    for any other action it looks the action up in the map of the class, with
    no default to fall back on, takes the permission strings as they are
    written, returns whether the principal holds them all globally, and
    raises [ImproperlyConfigured] when the action has no entry. *)
Theorem bare_has_permission {Obj}
    (self : Bare.Policy) (request : Request Obj) (viewset : ViewSet Obj) (st : Bare.Store) :
  bare_consistent self st →
  (default None (action viewset) = None →
   Bare.has_permission self request viewset st = (inr true, st))
  ∧ (∀ a : string,
       default None (action viewset) = Some a →
       fst (Bare.get_permissions_for_action self (Some a) st)
       = match Bare.actions_to_perms_map self !! Some a with
         | Some perms => inr perms
         | None => inl (ImproperlyConfigured (Bare.missing_message (Some a)))
         end
       ∧ fst (Bare.has_permission self request viewset st)
         = match Bare.actions_to_perms_map self !! Some a with
           | Some perms => inr (has_perms (user request) perms None)
           | None => inl (ImproperlyConfigured (Bare.missing_message (Some a)))
           end)
  ∧ (∀ a : string, Bare.actions_to_perms_map Bare.base_class !! Some a = None).
Proof.
  intros Hst. split; [|split].
  - intros Haction. unfold Bare.has_permission. by rewrite Haction.
  - intros a Haction.
    split; [by rewrite (bare_get_permissions_for_action_run _ _ _ Hst)|].
    unfold Bare.has_permission. rewrite Haction. unfold bind.
    rewrite (bare_get_permissions_for_action_run _ _ _ Hst).
    destruct (Bare.actions_to_perms_map self !! Some a) as [perms|]; [|done].
    by destruct (has_perms (user request) perms None).
  - intros a. apply lookup_empty.
Qed.

Lemma bare_has_permission_witness :
  bare_consistent report_policy Bare.__init__
  ∧ fst (Bare.get_permissions_for_action report_policy (Some "retrieve") Bare.__init__)
    = inr ["reports.%(kind)s_view"]
  ∧ fst (Bare.has_permission report_policy (get_by grants_everything)
           (post_viewset (Some "retrieve") (inr 7)) Bare.__init__)
    = inr true
  ∧ fst (Bare.has_permission report_policy (get_by grants_everything)
           (post_viewset (Some "list") (inr 7)) Bare.__init__)
    = inl (ImproperlyConfigured
             "Missing GenericDjangoViewsetWithoutModelPermissions action permission for list")
  ∧ Bare.has_permission report_policy (get_by nobody) (post_viewset None (inr 7)) Bare.__init__
    = (inr true, Bare.__init__).
Proof.
  assert (Hst : bare_consistent report_policy Bare.__init__) by (by left).
  split; [exact Hst|].
  split.
  { by rewrite (proj1 (proj1 (proj2 (bare_has_permission report_policy
       (get_by grants_everything) (post_viewset (Some "retrieve") (inr 7)) Bare.__init__ Hst))
       "retrieve" eq_refl)). }
  split.
  { by rewrite (proj2 (proj1 (proj2 (bare_has_permission report_policy
       (get_by grants_everything) (post_viewset (Some "retrieve") (inr 7)) Bare.__init__ Hst))
       "retrieve" eq_refl)). }
  split.
  { by rewrite (proj2 (proj1 (proj2 (bare_has_permission report_policy
       (get_by grants_everything) (post_viewset (Some "list") (inr 7)) Bare.__init__ Hst))
       "list" eq_refl)). }
  exact (proj1 (bare_has_permission report_policy (get_by nobody)
                  (post_viewset None (inr 7)) Bare.__init__ Hst) eq_refl).
Defined.

(** * Further properties of the code *)

(** ** The version switch of json_orminheritancefix *)

(** Settles each [bool_decide] of the goal whose proposition linear
    arithmetic proves or refutes. *)
Ltac decide_by_lia :=
  repeat match goal with
         | |- context [bool_decide ?P] =>
             first [ rewrite (bool_decide_eq_true_2 P) by lia
                   | rewrite (bool_decide_eq_false_2 P) by lia ]
         end.

Lemma tuple_lt_nil_r (x : list Z) : json_orminheritancefix.tuple_lt x [] = false.
Proof. by destruct x. Qed.

(** What the switch does with a version of at least two items, by cases on
    the first two. *)
Lemma import_module_cases (major minor : Z) (rest : list Z) :
  json_orminheritancefix.import_module (major :: minor :: rest)
  = if bool_decide (major < 1 ∨ (major = 1 ∧ minor < 8))%Z then
      json_orminheritancefix.Raised
        "json_orminheritancefix does not work with django < 1.8"
    else if bool_decide (major = 1 ∧ minor = 8)%Z then
      json_orminheritancefix.Imported
        json_orminheritancefix.json_orminheritancefix18
        json_orminheritancefix.json_orminheritancefix18 []
    else if bool_decide (major = 1 ∧ 9 ≤ minor < 12)%Z then
      json_orminheritancefix.Imported
        json_orminheritancefix.json_orminheritancefix19
        json_orminheritancefix.json_orminheritancefix19 []
    else if bool_decide (major = 1 ∨ (major = 2 ∧ minor < 1))%Z then
      json_orminheritancefix.Raised
        "json_orminheritancefix has not been tested with django 2.0"
    else if bool_decide (major = 2 ∧ minor = 1)%Z then
      json_orminheritancefix.Imported
        json_orminheritancefix.django_core_serializers_json
        json_orminheritancefix.django_core_serializers_json
        ["json_orminheritancefix is not needed in django >=2.1 and will be removed"]
    else
      json_orminheritancefix.Raised
        "json_orminheritancefix has not been tested with django > 2.1".
Proof.
  unfold json_orminheritancefix.import_module.
  cbn [json_orminheritancefix.tuple_lt json_orminheritancefix.tuple_le].
  rewrite !tuple_lt_nil_r.
  assert (Hmajor : (major < 1 ∨ major = 1 ∨ major = 2 ∨ 2 < major)%Z) by lia.
  assert (Hminor : (minor < 1 ∨ minor = 1 ∨ 1 < minor < 8 ∨ minor = 8
                    ∨ 9 ≤ minor < 12 ∨ 12 ≤ minor)%Z) by lia.
  destruct Hmajor as [?|[?|[?|?]]];
    destruct Hminor as [?|[?|[?|[?|[?|?]]]]];
    decide_by_lia; repeat case_bool_decide; reflexivity.
Qed.

(** X1: importing the module binds [Serializer] and [Deserializer] exactly
    for Django 1.8 up to 1.11 and for Django 2.1; for every other version
    the import raises. *)
Theorem import_module_supported_versions (major minor : Z) (rest : list Z) :
  (∃ S D warned,
      json_orminheritancefix.import_module (major :: minor :: rest)
      = json_orminheritancefix.Imported S D warned)
  ↔ ((major = 1 ∧ 8 ≤ minor < 12) ∨ (major = 2 ∧ minor = 1))%Z.
Proof.
  rewrite import_module_cases. split.
  - intros (S & D & warned & H).
    repeat case_bool_decide; try discriminate H; lia.
  - intros Hversion.
    repeat case_bool_decide; try (by eauto); lia.
Qed.

(** X2: when the import succeeds, both names come from the same module:
    the 1.8 fix for Django 1.8, the 1.9 fix for 1.9 up to 1.11, and Django's
    own JSON serializer for 2.1; a [DeprecationWarning] is issued exactly in
    the last case. *)
Theorem import_module_origins
    (major minor : Z) (rest : list Z)
    (S D : json_orminheritancefix.origin) (warned : list string) :
  json_orminheritancefix.import_module (major :: minor :: rest)
  = json_orminheritancefix.Imported S D warned →
  S = D
  ∧ (S = json_orminheritancefix.json_orminheritancefix18 ↔ (major = 1 ∧ minor = 8)%Z)
  ∧ (S = json_orminheritancefix.json_orminheritancefix19 ↔ (major = 1 ∧ 9 ≤ minor < 12)%Z)
  ∧ (S = json_orminheritancefix.django_core_serializers_json ↔ (major = 2 ∧ minor = 1)%Z)
  ∧ (warned ≠ [] ↔ S = json_orminheritancefix.django_core_serializers_json).
Proof.
  rewrite import_module_cases. intros H.
  repeat case_bool_decide; try discriminate H; inversion H; subst;
    (split; [reflexivity|]);
    repeat split; try discriminate; try lia; try done.
Qed.

Lemma import_module_origins_witness :
  json_orminheritancefix.import_module [1; 11; 29]%Z
  = json_orminheritancefix.Imported
      json_orminheritancefix.json_orminheritancefix19
      json_orminheritancefix.json_orminheritancefix19 []
  ∧ (json_orminheritancefix.json_orminheritancefix19
     = json_orminheritancefix.json_orminheritancefix19
     ↔ (1 = 1 ∧ 9 ≤ 11 < 12)%Z).
Proof.
  assert (H : json_orminheritancefix.import_module [1; 11; 29]%Z
              = json_orminheritancefix.Imported
                  json_orminheritancefix.json_orminheritancefix19
                  json_orminheritancefix.json_orminheritancefix19 []).
  { vm_compute. reflexivity. }
  split; [exact H|].
  exact (proj1 (proj2 (proj2 (import_module_origins 1 11 [29%Z] _ _ _ H)))).
Defined.

(** X3: the switch looks at the first two items of [django.VERSION] only:
    patch releases, release levels and serials never change what is
    imported. *)
Theorem import_module_ignores_patch (major minor : Z) (rest : list Z) :
  json_orminheritancefix.import_module (major :: minor :: rest)
  = json_orminheritancefix.import_module [major; minor].
Proof. by rewrite !import_module_cases. Qed.

(** ** GenericDjangoViewsetPermissions: the object check and unmapped actions *)

(** X4: outside the OPTIONS-in-debug bypass, [has_object_permission]
    decides by the object-scoped check of the required permissions alone: it
    returns what [has_perms(perms, obj)] answers, raises what the permission
    lookup raises, never invokes [get_object()] and never touches the list
    actions. *)
Theorem generic_has_object_permission_decides {Obj}
    (settings : Settings) (self : Generic.Policy) (request : Request Obj)
    (viewset : ViewSet Obj) (a : option string) (obj : Obj) (st : Generic.Store) :
  map_memo_ok self st →
  options_in_debug settings request = false →
  action viewset = Some a →
  let run := Generic.has_object_permission settings self request viewset obj st in
  fst run
  = match fst (Generic.get_permissions_for_action self a viewset st) with
    | inl e => inl e
    | inr perms => inr (has_perms (user request) perms (Some obj))
    end
  ∧ Generic.get_object_calls (snd run) = Generic.get_object_calls st
  ∧ Generic._saved_permission_list_actions (snd run)
    = Generic._saved_permission_list_actions st.
Proof.
  intros Hst Hbypass Haction run. subst run.
  unfold Generic.has_object_permission, Generic.getattr_action, lift.
  unfold bind at 1. rewrite Haction, Hbypass. unfold bind.
  rewrite (get_permissions_for_action_run _ _ _ _ Hst). simpl.
  by destruct (except_KeyError _ _).
Qed.

Lemma generic_has_object_permission_decides_witness :
  let run obj :=
    Generic.has_object_permission in_production no_overrides (get_by (owner_of 7))
      (post_viewset (Some "destroy") (inr 7)) obj fresh_store in
  fst (run 7) = inr true ∧ fst (run 8) = inr false
  ∧ Generic.get_object_calls (snd (run 7)) = 0.
Proof.
  assert (Hst : map_memo_ok no_overrides fresh_store) by (by left).
  pose proof (fun obj =>
    generic_has_object_permission_decides in_production no_overrides (get_by (owner_of 7))
      (post_viewset (Some "destroy") (inr 7)) (Some "destroy") obj fresh_store
      Hst eq_refl eq_refl) as H.
  intros run. subst run. simpl in H.
  split; [exact (proj1 (H 7))|].
  split; [exact (proj1 (H 8))|].
  exact (proj1 (proj2 (H 7))).
Defined.

(** X5: outside the bypass, an action with no entry in the merged map
    makes both [has_permission] and [has_object_permission] raise
    [ImproperlyConfigured] naming the action, whoever the principal is and
    without [get_object()] being invoked. 'metadata', the action of an
    OPTIONS request, is such an action for the default map. *)
Theorem generic_unmapped_action_raises {Obj}
    (settings : Settings) (self : Generic.Policy) (request : Request Obj)
    (viewset : ViewSet Obj) (a : option string) (obj : Obj) (st : Generic.Store) :
  map_memo_ok self st →
  options_in_debug settings request = false →
  action viewset = Some a →
  Generic.merged self !! a = None →
  Generic.has_permission settings self request viewset st
  = (inl (ImproperlyConfigured (Generic.missing_message a)), after_lookup self st)
  ∧ Generic.has_object_permission settings self request viewset obj st
    = (inl (ImproperlyConfigured (Generic.missing_message a)), after_lookup self st)
  ∧ Generic.get_object_calls (after_lookup self st) = Generic.get_object_calls st.
Proof.
  intros Hst Hbypass Haction Hmissing.
  unfold Generic.has_permission, Generic.has_object_permission,
    Generic.getattr_action, lift.
  rewrite Hbypass, Haction. simpl.
  unfold bind.
  rewrite !(get_permissions_for_action_run _ _ _ _ Hst), Hmissing. by simpl.
Qed.

Lemma generic_unmapped_action_raises_witness :
  Generic.merged no_overrides !! Some "metadata" = None
  ∧ Generic.has_permission in_production no_overrides (options_by grants_everything)
      (post_viewset (Some "metadata") (inr 7)) fresh_store
    = (inl (ImproperlyConfigured
              (Generic.missing_message (Some "metadata"))),
       after_lookup no_overrides fresh_store).
Proof.
  assert (Hst : map_memo_ok no_overrides fresh_store) by (by left).
  assert (Hmissing : Generic.merged no_overrides !! Some "metadata" = None).
  { vm_compute. reflexivity. }
  split; [exact Hmissing|].
  exact (proj1 (generic_unmapped_action_raises in_production no_overrides
                  (options_by grants_everything) (post_viewset (Some "metadata") (inr 7))
                  (Some "metadata") 7 fresh_store Hst eq_refl eq_refl Hmissing)).
Defined.

(** ** GenericDjangoViewsetPermissions: what memoising does and does not do *)

(** X6: asking twice gives the same answer: on a store consistent with the
    policy and the viewset class, a second [has_permission] returns or raises
    what the first did, whatever the first memoised. *)
Theorem has_permission_twice {Obj}
    (settings : Settings) (self : Generic.Policy) (request : Request Obj)
    (viewset : ViewSet Obj) (st : Generic.Store) :
  generic_consistent self viewset st →
  fst (Generic.has_permission settings self request viewset
         (snd (Generic.has_permission settings self request viewset st)))
  = fst (Generic.has_permission settings self request viewset st).
Proof.
  intros Hst.
  pose proof (has_permission_keeps_consistent settings self request viewset st Hst) as Hst'.
  set (st' := snd (Generic.has_permission settings self request viewset st)) in *.
  clearbody st'.
  destruct (options_in_debug settings request) eqn:Hbypass.
  - unfold Generic.has_permission. by rewrite Hbypass.
  - rewrite (has_permission_run _ _ _ _ _ Hst' Hbypass).
    rewrite (has_permission_run _ _ _ _ _ Hst Hbypass).
    rewrite (get_permissions_for_action_run _ _ _ _ (proj1 Hst')).
    rewrite (get_permissions_for_action_run _ _ _ _ (proj1 Hst)).
    simpl.
    destruct (except_KeyError _ _) as [e|perms]; [done|].
    destruct (has_perms _ _ _); [done|].
    by destruct (Generic.not_in _ _).
Qed.

Lemma has_permission_twice_witness :
  generic_consistent no_overrides (post_viewset (Some "retrieve") (inl Http404)) fresh_store
  ∧ fst (Generic.has_permission in_production no_overrides (get_by nobody)
           (post_viewset (Some "retrieve") (inl Http404))
           (snd (Generic.has_permission in_production no_overrides (get_by nobody)
                   (post_viewset (Some "retrieve") (inl Http404)) fresh_store)))
    = inl Http404.
Proof.
  assert (Hst : generic_consistent no_overrides
                  (post_viewset (Some "retrieve") (inl Http404)) fresh_store).
  { split; by left. }
  split; [exact Hst|].
  by rewrite (has_permission_twice in_production no_overrides (get_by nobody)
                (post_viewset (Some "retrieve") (inl Http404)) fresh_store Hst).
Defined.

Lemma get_permissions_for_action_store {Obj}
    (self : Generic.Policy) (a : option string) (view : ViewSet Obj) (st : Generic.Store) :
  snd (Generic.get_permissions_for_action self a view st)
  = match Generic._saved_actions_to_perms_map st with
    | None => after_lookup self st
    | Some _ => st
    end.
Proof.
  unfold Generic.get_permissions_for_action, Generic.get_actions_to_perms_map,
    bind, gets, modify, ret, lift.
  by destruct (Generic._saved_actions_to_perms_map st).
Qed.

Lemma get_list_actions_store {Obj} (viewset : ViewSet Obj) (st : Generic.Store) :
  snd (Generic.get_list_actions viewset st)
  = match Generic._saved_permission_list_actions st with
    | None =>
        Generic.set_saved_permission_list_actions
          (Generic.list_actions_of_class (dir_class viewset)) st
    | Some _ => st
    end.
Proof.
  unfold Generic.get_list_actions, bind, gets, modify, ret.
  by destruct (Generic._saved_permission_list_actions st).
Qed.

(** X7: a memoised attribute is never overwritten. Whatever
    [_saved_actions_to_perms_map] or [_saved_permission_list_actions] holds
    when [has_permission] or [has_object_permission] starts, it still holds
    when the method returns or raises, also when it is not what the method
    would compute now. *)
Theorem memo_is_never_overwritten {Obj}
    (settings : Settings) (self : Generic.Policy) (request : Request Obj)
    (viewset : ViewSet Obj) (obj : Obj) (st : Generic.Store) :
  let after_has_permission :=
    snd (Generic.has_permission settings self request viewset st) in
  let after_has_object_permission :=
    snd (Generic.has_object_permission settings self request viewset obj st) in
  (∀ m, Generic._saved_actions_to_perms_map st = Some m →
        Generic._saved_actions_to_perms_map after_has_permission = Some m
        ∧ Generic._saved_actions_to_perms_map after_has_object_permission = Some m)
  ∧ (∀ s, Generic._saved_permission_list_actions st = Some s →
          Generic._saved_permission_list_actions after_has_permission = Some s
          ∧ Generic._saved_permission_list_actions after_has_object_permission = Some s).
Proof.
  intros after1 after2. subst after1 after2.
  assert (Hperms : ∀ a,
            Generic._saved_permission_list_actions
              (snd (Generic.get_permissions_for_action self a viewset st))
            = Generic._saved_permission_list_actions st
            ∧ ∀ m, Generic._saved_actions_to_perms_map st = Some m →
                   Generic._saved_actions_to_perms_map
                     (snd (Generic.get_permissions_for_action self a viewset st)) = Some m).
  { intros a. rewrite get_permissions_for_action_store.
    destruct (Generic._saved_actions_to_perms_map st) eqn:Hsaved; [|by split].
    split; [done|]. intros m [= <-]. exact Hsaved. }
  assert (Hobj : snd (Generic.has_object_permission settings self request viewset obj st) = st
                 ∨ ∃ a, snd (Generic.has_object_permission settings self request viewset obj st)
                        = snd (Generic.get_permissions_for_action self a viewset st)).
  { unfold Generic.has_object_permission, Generic.getattr_action, lift.
    unfold bind at 1. destruct (action viewset) as [a|]; [|by left].
    destruct (options_in_debug settings request); [by left|].
    right. exists a. unfold bind, ret.
    by destruct (Generic.get_permissions_for_action self a viewset st) as [[e|perms] st']. }
  assert (Hhas : ∀ P : Generic.Store → Prop,
            P st →
            (∀ a, P (snd (Generic.get_permissions_for_action self a viewset st))) →
            (∀ st', P st' → P (snd (Generic.get_list_actions viewset st'))
                            ∧ P (Generic.count_get_object
                                   (snd (Generic.get_list_actions viewset st')))) →
            P (snd (Generic.has_permission settings self request viewset st))).
  { intros P Hst Hlookup Hlist. unfold Generic.has_permission.
    destruct (options_in_debug settings request); [done|].
    unfold bind at 1.
    specialize (Hlookup (default None (action viewset))).
    destruct (Generic.get_permissions_for_action _ _ _ _) as [[e|perms] st1]; [done|].
    destruct (has_perms _ _ _); [done|].
    unfold bind at 1. specialize (Hlist st1 Hlookup).
    destruct (Generic.get_list_actions viewset st1) as [[e|list_actions] st2]; [by apply Hlist|].
    destruct (Generic.not_in _ _); [|by apply Hlist].
    unfold bind, Generic.call_get_object, bind, modify, lift, ret. simpl in *.
    destruct (get_object viewset); by apply Hlist. }
  split.
  - intros m Hm. split.
    + apply (Hhas (fun st' => Generic._saved_actions_to_perms_map st' = Some m)).
      * exact Hm.
      * intros a. by apply Hperms.
      * intros st' Hst'. rewrite get_list_actions_store.
        by destruct (Generic._saved_permission_list_actions st').
    + destruct Hobj as [-> | [a ->]]; [done | by apply Hperms].
  - intros s Hs. split.
    + apply (Hhas (fun st' => Generic._saved_permission_list_actions st' = Some s)).
      * exact Hs.
      * intros a. by rewrite (proj1 (Hperms a)).
      * intros st' Hst'. rewrite get_list_actions_store. by rewrite Hst'.
    + destruct Hobj as [-> | [a ->]]; [done | by rewrite (proj1 (Hperms a))].
Qed.

Lemma memo_is_never_overwritten_witness :
  let stale : Generic.Store :=
    {| Generic._saved_actions_to_perms_map := Some ∅;
       Generic._saved_permission_list_actions := Some ∅;
       Generic.get_object_calls := 0 |} in
  Generic._saved_permission_list_actions
    (snd (Generic.has_permission in_production no_overrides (get_by nobody)
            (post_viewset (Some "list") (inr 7)) stale))
  = Some ∅.
Proof.
  intros stale.
  exact (proj1 (proj2 (memo_is_never_overwritten in_production no_overrides (get_by nobody)
                         (post_viewset (Some "list") (inr 7)) 7 stale) ∅ eq_refl)).
Defined.

(** ** GenericDjangoViewsetPermissions: which routes are list actions *)

Lemma all_without_object_Forall (verbs : list string) :
  Generic.all_without_object verbs = true ↔ Forall passes verbs.
Proof.
  unfold Generic.all_without_object, passes.
  induction verbs as [|verb verbs IH]; simpl.
  - split; [by constructor | done].
  - rewrite andb_true_iff, bool_decide_eq_true, IH. split.
    + intros [? ?]. by constructor.
    + intros H. by inversion H.
Qed.

#[local] Arguments Generic.all_without_object : simpl never.

Lemma qualifies_spelled_out (method : Method) :
  qualifies method = true
  ↔ detail method = Some false
    ∧ ((∃ verb verbs, bind_to_methods method = Some (verb :: verbs)
                      ∧ Forall passes (verb :: verbs))
       ∨ ((bind_to_methods method = None ∨ bind_to_methods method = Some [])
          ∧ ∃ keys, mapping method = Some keys ∧ Forall passes keys)).
Proof.
  unfold qualifies, Generic.detail_is_False, Generic.truthy.
  destruct method as [bound keys marked]. simpl.
  destruct marked as [[|]|]; simpl;
    try (split; [done | by intros [? _]]).
  destruct bound as [[|verb verbs]|]; simpl.
  - destruct keys as [keys|].
    + rewrite all_without_object_Forall. split.
      * intros H. split; [done|]. right. split; [by right|]. by exists keys.
      * intros [_ [(? & ? & ? & _)|[_ (keys' & [= <-] & H)]]]; done.
    + split; [done|]. intros [_ [(? & ? & ? & _)|[_ (keys' & ? & _)]]]; done.
  - rewrite orb_false_r, all_without_object_Forall. split.
    + intros H. split; [done|]. left. by exists verb, verbs.
    + intros [_ [(v & vs & [= <- <-] & H)|[[?|?] _]]]; done.
  - destruct keys as [keys|].
    + rewrite all_without_object_Forall. split.
      * intros H. split; [done|]. right. split; [by left|]. by exists keys.
      * intros [_ [(? & ? & ? & _)|[_ (keys' & [= <-] & H)]]]; done.
    + split; [done|]. intros [_ [(? & ? & ? & _)|[_ (keys' & ? & _)]]]; done.
Qed.

(** X8: the list actions of a class are 'list', 'create' and the name of
    every attribute marked [detail=False] (exactly [False]) that either has a
    non-empty [bind_to_methods] whose verbs all lower to 'header', 'get' or
    'post', or has no or an empty [bind_to_methods] and a [mapping] whose
    keys all do; an empty [mapping] counts. Nothing else is a list action. *)
Theorem list_actions_characterised (dir_class : list (string * Method)) (a : string) :
  a ∈ Generic.list_actions_of_class dir_class
  ↔ a = "list" ∨ a = "create"
    ∨ ∃ method,
        (a, method) ∈ dir_class
        ∧ detail method = Some false
        ∧ ((∃ verb verbs, bind_to_methods method = Some (verb :: verbs)
                          ∧ Forall passes (verb :: verbs))
           ∨ ((bind_to_methods method = None ∨ bind_to_methods method = Some [])
              ∧ ∃ keys, mapping method = Some keys ∧ Forall passes keys)).
Proof.
  rewrite elem_of_list_actions_of_class.
  split; (intros [H|[H|(method & Hin & H)]]; [by left | by right; left |]);
    right; right; exists method; (split; [exact Hin|]); by apply qualifies_spelled_out.
Qed.

(** X9: the order in which [dir] lists the attributes of the class, and
    how often, plays no part: two listings with the same entries give the
    same list actions. *)
Theorem list_actions_order_irrelevant (dir1 dir2 : list (string * Method)) :
  (∀ entry, entry ∈ dir1 ↔ entry ∈ dir2) →
  Generic.list_actions_of_class dir1 = Generic.list_actions_of_class dir2.
Proof.
  intros Hsame. apply set_eq. intros a.
  rewrite !elem_of_list_actions_of_class.
  split; (intros [H|[H|(method & Hin & H)]]; [by left | by right; left |]);
    right; right; exists method; (split; [by apply Hsame | exact H]).
Qed.

Lemma list_actions_order_irrelevant_witness :
  Generic.list_actions_of_class (reverse probing_class)
  = Generic.list_actions_of_class probing_class.
Proof.
  apply list_actions_order_irrelevant.
  intros entry. apply elem_of_reverse.
Defined.

(** ** The list actions of classes that inherit from each other *)

Lemma lookup_along_app (own : gmap string (gset string)) (xs ys : list string) :
  ClassAttributes.lookup_along own (xs ++ ys)%list
  = match ClassAttributes.lookup_along own xs with
    | Some s => Some s
    | None => ClassAttributes.lookup_along own ys
    end.
Proof.
  induction xs as [|c xs IH]; [done|].
  simpl. by destruct (own !! c).
Qed.

Lemma lookup_along_insert_fresh
    (own : gmap string (gset string)) (c : string) (s : gset string) (xs : list string) :
  c ∉ xs →
  ClassAttributes.lookup_along (<[ c := s ]> own) xs = ClassAttributes.lookup_along own xs.
Proof.
  induction xs as [|x xs IH]; [done|].
  intros Hfresh. apply not_elem_of_cons in Hfresh as [Hne Hfresh].
  simpl. rewrite lookup_insert_ne; [|done]. by rewrite IH.
Qed.

(** The store of the policy methods holds what the lookup along the
    resolution order finds: on such a store [Generic.get_list_actions] returns
    and memoises what [ClassAttributes.get_list_actions] does. *)
Lemma get_list_actions_along_mro {Obj}
    (cls : ClassAttributes.ViewSetClass) (own : gmap string (gset string))
    (viewset : ViewSet Obj) (st : Generic.Store) :
  dir_class viewset = ClassAttributes.attributes cls →
  Generic._saved_permission_list_actions st
  = ClassAttributes.lookup_along own (ClassAttributes.mro cls) →
  fst (Generic.get_list_actions viewset st)
  = inr (fst (ClassAttributes.get_list_actions cls own))
  ∧ Generic._saved_permission_list_actions (snd (Generic.get_list_actions viewset st))
    = ClassAttributes.lookup_along
        (snd (ClassAttributes.get_list_actions cls own)) (ClassAttributes.mro cls).
Proof.
  intros Hdir Hsaved.
  unfold Generic.get_list_actions, ClassAttributes.get_list_actions, bind, gets, modify, ret.
  rewrite Hsaved, Hdir.
  destruct (ClassAttributes.lookup_along own (ClassAttributes.mro cls)) eqn:Hlookup; simpl.
  - by rewrite Hsaved.
  - by rewrite lookup_insert_eq.
Qed.

(** X10: a subclass scanned after its parent gets the parent's list
    actions. When nothing is memoised along the parent's resolution order
    and the parent class is scanned first, a later [get_list_actions] for a
    class that inherits from it finds the parent's attribute, skips the scan
    of its own routes, returns the parent's set and memoises nothing. *)
Theorem subclass_gets_parents_list_actions
    (parent child : ClassAttributes.ViewSetClass) (between : list string)
    (own : gmap string (gset string)) :
  ClassAttributes.bases child = (between ++ ClassAttributes.mro parent)%list →
  ClassAttributes.name parent ∉ ClassAttributes.name child :: between →
  ClassAttributes.lookup_along own (ClassAttributes.mro child) = None →
  let after_parent := snd (ClassAttributes.get_list_actions parent own) in
  ClassAttributes.get_list_actions child after_parent
  = (Generic.list_actions_of_class (ClassAttributes.attributes parent), after_parent).
Proof.
  intros Hbases Hfresh Hnone after_parent. subst after_parent.
  unfold ClassAttributes.mro in Hnone. rewrite Hbases in Hnone.
  change (ClassAttributes.name child :: between ++ ClassAttributes.mro parent)%list
    with ((ClassAttributes.name child :: between) ++ ClassAttributes.mro parent)%list in Hnone.
  rewrite lookup_along_app in Hnone.
  destruct (ClassAttributes.lookup_along own (ClassAttributes.name child :: between))
    eqn:Hprefix; [done|].
  assert (Hparent : ClassAttributes.get_list_actions parent own
                    = (Generic.list_actions_of_class (ClassAttributes.attributes parent),
                       <[ ClassAttributes.name parent
                          := Generic.list_actions_of_class (ClassAttributes.attributes parent) ]>
                         own)).
  { unfold ClassAttributes.get_list_actions. by rewrite Hnone. }
  rewrite Hparent. simpl.
  unfold ClassAttributes.get_list_actions, ClassAttributes.mro at 1. rewrite Hbases.
  change (ClassAttributes.name child :: between ++ ClassAttributes.mro parent)%list
    with ((ClassAttributes.name child :: between) ++ ClassAttributes.mro parent)%list.
  rewrite lookup_along_app, (lookup_along_insert_fresh _ _ _ _ Hfresh), Hprefix.
  unfold ClassAttributes.mro. simpl. by rewrite lookup_insert_eq.
Qed.

Lemma subclass_gets_parents_list_actions_witness :
  let after_parent := snd (ClassAttributes.get_list_actions probing_parent ∅) in
  fst (ClassAttributes.get_list_actions probing_child after_parent)
  = list_to_set ["list"; "create"; "recent"]
  ∧ fst (ClassAttributes.get_list_actions probing_child ∅)
    = list_to_set ["list"; "create"; "recent"; "audit"].
Proof.
  intros after_parent. subst after_parent. split.
  - rewrite (subclass_gets_parents_list_actions probing_parent probing_child [] ∅).
    + vm_compute. reflexivity.
    + reflexivity.
    + apply (bool_decide_unpack _). vm_compute. exact I.
    + reflexivity.
  - vm_compute. reflexivity.
Defined.

(** X11: scanned in the other order, each class gets its own list
    actions. When nothing is memoised along the subclass's resolution order
    and the subclass is scanned first, it gets the set of its own routes, and
    a later scan of the parent does not see the subclass's attribute: the
    parent gets the set of its routes. *)
Theorem subclass_first_then_parent
    (parent child : ClassAttributes.ViewSetClass) (between : list string)
    (own : gmap string (gset string)) :
  ClassAttributes.bases child = (between ++ ClassAttributes.mro parent)%list →
  ClassAttributes.name child ∉ ClassAttributes.mro parent →
  ClassAttributes.lookup_along own (ClassAttributes.mro child) = None →
  let after_child := snd (ClassAttributes.get_list_actions child own) in
  fst (ClassAttributes.get_list_actions child own)
  = Generic.list_actions_of_class (ClassAttributes.attributes child)
  ∧ fst (ClassAttributes.get_list_actions parent after_child)
    = Generic.list_actions_of_class (ClassAttributes.attributes parent)
  ∧ fst (ClassAttributes.get_list_actions child
           (snd (ClassAttributes.get_list_actions parent after_child)))
    = Generic.list_actions_of_class (ClassAttributes.attributes child).
Proof.
  intros Hbases Hfresh Hnone after_child. subst after_child.
  assert (Hparent : ClassAttributes.lookup_along own (ClassAttributes.mro parent) = None).
  { unfold ClassAttributes.mro in Hnone at 1. rewrite Hbases in Hnone.
    change (ClassAttributes.name child :: between ++ ClassAttributes.mro parent)%list
      with ((ClassAttributes.name child :: between) ++ ClassAttributes.mro parent)%list in Hnone.
    rewrite lookup_along_app in Hnone.
    by destruct (ClassAttributes.lookup_along own (ClassAttributes.name child :: between)). }
  assert (Hchild : ClassAttributes.get_list_actions child own
                   = (Generic.list_actions_of_class (ClassAttributes.attributes child),
                      <[ ClassAttributes.name child
                         := Generic.list_actions_of_class (ClassAttributes.attributes child) ]>
                        own)).
  { unfold ClassAttributes.get_list_actions. by rewrite Hnone. }
  rewrite Hchild. simpl.
  assert (Hthen : ∀ s,
            ClassAttributes.get_list_actions parent (<[ ClassAttributes.name child := s ]> own)
            = (Generic.list_actions_of_class (ClassAttributes.attributes parent),
               <[ ClassAttributes.name parent
                  := Generic.list_actions_of_class (ClassAttributes.attributes parent) ]>
                 (<[ ClassAttributes.name child := s ]> own))).
  { intros s. unfold ClassAttributes.get_list_actions.
    by rewrite (lookup_along_insert_fresh _ _ _ _ Hfresh), Hparent. }
  rewrite Hthen. simpl.
  split; [done|]. split; [done|].
  assert (Hne : ClassAttributes.name parent ≠ ClassAttributes.name child).
  { intros Heq. apply Hfresh. unfold ClassAttributes.mro. rewrite Heq.
    apply elem_of_cons. by left. }
  unfold ClassAttributes.get_list_actions, ClassAttributes.mro. simpl.
  rewrite lookup_insert_ne; [|done]. by rewrite lookup_insert_eq.
Qed.

Lemma subclass_first_then_parent_witness :
  let after_child := snd (ClassAttributes.get_list_actions probing_child ∅) in
  fst (ClassAttributes.get_list_actions probing_parent after_child)
  = Generic.list_actions_of_class probing_class.
Proof.
  intros after_child. subst after_child.
  refine (proj1 (proj2 (subclass_first_then_parent probing_parent probing_child [] ∅ _ _ _))).
  - reflexivity.
  - apply (bool_decide_unpack _). vm_compute. exact I.
  - reflexivity.
Defined.

(** ** GenericDjangoViewsetPermissions: permission strings that are not templates *)

Lemma percent_format_literal (getitem : string → option string) (perm : string) :
  no_percent perm = true → percent_format getitem perm = inr perm.
Proof.
  unfold percent_format. induction perm as [|c rest IH]; [done|].
  simpl. intros [Hc Hrest]%andb_true_iff.
  apply negb_true_iff in Hc. rewrite Hc. by rewrite (IH Hrest).
Qed.

Lemma comprehension_literal (getitem : string → option string) (perms : list string) :
  forallb no_percent perms = true →
  comprehension (percent_format getitem) perms = inr perms.
Proof.
  induction perms as [|perm perms IH]; [done|].
  simpl. intros [Hperm Hperms]%andb_true_iff.
  by rewrite (percent_format_literal _ _ Hperm), (IH Hperms).
Qed.

(** X12: permission strings without any [%] are returned as they are
    written, in order: for such an entry the model-aware policy gives what
    the model-less policy gives for the same map. *)
Theorem literal_permissions_verbatim {Obj}
    (self : Generic.Policy) (action : option string) (view : ViewSet Obj)
    (perms : list string) (st : Generic.Store) :
  map_memo_ok self st →
  Generic.merged self !! action = Some perms →
  forallb no_percent perms = true →
  fst (Generic.get_permissions_for_action self action view st) = inr perms
  ∧ fst (Bare.get_permissions_for_action
           {| Bare.actions_to_perms_map := Generic.merged self |} action Bare.__init__)
    = inr perms.
Proof.
  intros Hst Hentry Hliteral. split.
  - rewrite (get_permissions_for_action_run _ _ _ _ Hst), Hentry. simpl.
    by rewrite (comprehension_literal _ _ Hliteral).
  - rewrite bare_get_permissions_for_action_run; [|by left]. simpl. by rewrite Hentry.
Qed.

Lemma literal_permissions_verbatim_witness :
  let self : Generic.Policy :=
    {| Generic.actions_to_perms_map :=
         Some {[ Some "publish" := ["blog.publish_post"; "blog.view_post"] ]} |} in
  fst (Generic.get_permissions_for_action self (Some "publish")
         (post_viewset (Some "publish") (inr 7)) fresh_store)
  = inr ["blog.publish_post"; "blog.view_post"].
Proof.
  intros self.
  refine (proj1 (literal_permissions_verbatim self (Some "publish")
                   (post_viewset (Some "publish") (inr 7))
                   ["blog.publish_post"; "blog.view_post"] fresh_store _ _ _)).
  - by left.
  - vm_compute. reflexivity.
  - reflexivity.
Defined.

Lemma snoc_append (acc : string) (c : ascii) (key : string) :
  snoc acc c ++ key = acc ++ String c key.
Proof. induction acc as [|d acc IH]; [done|]. simpl. by rewrite !append_cons, IH. Qed.

(** The scanner inside [%(]: a key without parentheses is read up to the
    closing parenthesis and looked up at once. *)
Lemma format_from_key (getitem : string → option string) (key : string) :
  ∀ acc rest,
    no_parenthesis key = true →
    format_from getitem (Key 1 acc) (key ++ String ")" rest)
    = match getitem (acc ++ key) with
      | None => inl (KeyError (acc ++ key))
      | Some v => format_from getitem (Conversion v) rest
      end.
Proof.
  induction key as [|c key IH]; intros acc rest Hkey.
  - change ("" ++ String ")" rest) with (String ")" rest). simpl.
    by rewrite append_empty_r.
  - rewrite append_cons. simpl in Hkey.
    apply andb_true_iff in Hkey as [[Hopen Hclose]%andb_true_iff Hkey].
    apply negb_true_iff in Hopen, Hclose.
    simpl. rewrite Hclose, Hopen.
    rewrite (IH _ _ Hkey). by rewrite snoc_append.
Qed.

Lemma comprehension_app {A B} (f : A → result B) (xs ys : list A) :
  comprehension f (xs ++ ys)%list
  = match comprehension f xs with
    | inl e => inl e
    | inr done_xs =>
        match comprehension f ys with
        | inl e => inl e
        | inr done_ys => inr (done_xs ++ done_ys)%list
        end
    end.
Proof.
  induction xs as [|x xs IH]; simpl.
  - by destruct (comprehension f ys).
  - destruct (f x); [done|]. rewrite IH.
    destruct (comprehension f xs); [done|]. by destruct (comprehension f ys).
Qed.

(** X13: a permission string that names a mapping key other than
    'app_label' and 'model_name' makes [%] raise [KeyError], which the
    [except KeyError] clause of [get_permissions_for_action] turns into the
    [ImproperlyConfigured] of a missing action, although the action has an
    entry. The strings before it may be any templates, what follows the key
    is not looked at. *)
Theorem unknown_key_reported_as_missing_action {Obj}
    (self : Generic.Policy) (action : option string) (view : ViewSet Obj)
    (before : list (list Template.piece)) (start : list Template.piece)
    (key rest : string) (more : list string) (st : Generic.Store) :
  map_memo_ok self st →
  no_parenthesis key = true →
  key ≠ "app_label" →
  key ≠ "model_name" →
  Generic.merged self !! action
  = Some ((Template.render <$> before)
          ++ (Template.render start ++ "%(" ++ key ++ ")" ++ rest)%string :: more)%list →
  fst (Generic.get_permissions_for_action self action view st)
  = inl (ImproperlyConfigured (Generic.missing_message action)).
Proof.
  intros Hst Hkey Hlabel Hname Hentry.
  rewrite (get_permissions_for_action_run _ _ _ _ Hst), Hentry. simpl.
  rewrite comprehension_app.
  rewrite (comprehension_render (fun k => Generic.kwargs view !! k));
    [| eexists; apply kwargs_app_label | eexists; apply kwargs_model_name].
  simpl.
  assert (Hbad : percent_format (fun k => Generic.kwargs view !! k)
                   (Template.render start ++ "%(" ++ key ++ ")" ++ rest)
                 = inl (KeyError key)).
  { unfold percent_format.
    rewrite (format_from_app _ _ _ _ _
               (percent_format_render (fun k => Generic.kwargs view !! k)
                  ltac:(eexists; apply kwargs_app_label)
                  ltac:(eexists; apply kwargs_model_name) start)).
    change ("%(" ++ key ++ ")" ++ rest)
      with (String "%" (String "(" (key ++ String ")" rest))).
    simpl. rewrite (format_from_key _ _ _ _ Hkey).
    change ("" ++ key) with key.
    assert (Hnone : Generic.kwargs view !! key = None).
    { unfold Generic.kwargs. rewrite lookup_insert_ne; [|done].
      by rewrite lookup_singleton_ne. }
    by rewrite Hnone. }
  by rewrite Hbad.
Qed.

Lemma unknown_key_reported_as_missing_action_witness :
  let self : Generic.Policy :=
    {| Generic.actions_to_perms_map :=
         Some {[ Some "create" := ["%(app_label)s.add_%(model)s"] ]} |} in
  fst (Generic.get_permissions_for_action self (Some "create")
         (post_viewset (Some "create") (inr 7)) fresh_store)
  = inl (ImproperlyConfigured
           "Missing GenericDjangoViewsetPermissions action permission for create").
Proof.
  intros self.
  refine (unknown_key_reported_as_missing_action self (Some "create")
            (post_viewset (Some "create") (inr 7))
            [] [Template.Namespace; Template.Lit ".add_"] "model" "s" []
            fresh_store _ _ _ _ _).
  - by left.
  - reflexivity.
  - discriminate.
  - discriminate.
  - vm_compute. reflexivity.
Defined.

(** ** SimpleDjangoObjectPermissions: the two checks one after the other *)

(** X14: a principal whom [has_permission] lets through is never
    refused by [has_object_permission]: with assertions enabled the object
    check returns true exactly when the principal does not hold the
    permission for the object, and raises [AssertionError] exactly when it
    does. *)
Theorem simple_object_check_after_global_grant {Obj}
    (py : Interpreter) (request : Request Obj) (view : View) (obj : Obj) :
  Simple.has_permission request view = true →
  Simple.has_object_permission py request view obj ≠ inr false
  ∧ (debug__ py = true →
     (Simple.has_object_permission py request view obj = inr true
      ↔ has_perm (user request) (permission_required view) (Some obj) = false)
     ∧ (Simple.has_object_permission py request view obj
        = inl (AssertionError Simple.both_true_message)
        ↔ has_perm (user request) (permission_required view) (Some obj) = true)).
Proof.
  unfold Simple.has_permission, Simple.has_object_permission, py_assert.
  intros ->.
  destruct (has_perm (user request) (permission_required view) (Some obj));
    destruct (debug__ py); simpl; repeat split; try done; intros; done.
Qed.

Lemma simple_object_check_after_global_grant_witness :
  Simple.has_permission (get_by grants_everything) a_view = true
  ∧ Simple.has_object_permission default_interpreter (get_by grants_everything) a_view 7
    ≠ inr false.
Proof.
  split; [reflexivity|].
  exact (proj1 (simple_object_check_after_global_grant default_interpreter
                  (get_by grants_everything) a_view 7 eq_refl)).
Defined.

(** ** GenericDjangoViewsetWithoutModelPermissions: the object check *)

(** X15: the model-less [has_object_permission] returns what
    [has_perms(perms, obj)] answers for the strings of the action's entry and
    raises [ImproperlyConfigured] when the action has none. It has no
    shortcut for the action [None]: where [has_permission] grants, the
    object check raises unless the map has an entry for [None]. *)
Theorem bare_has_object_permission {Obj}
    (self : Bare.Policy) (request : Request Obj) (viewset : ViewSet Obj)
    (a : option string) (obj : Obj) (st : Bare.Store) :
  bare_consistent self st →
  action viewset = Some a →
  fst (Bare.has_object_permission self request viewset obj st)
  = match Bare.actions_to_perms_map self !! a with
    | Some perms => inr (has_perms (user request) perms (Some obj))
    | None => inl (ImproperlyConfigured (Bare.missing_message a))
    end
  ∧ (a = None → Bare.actions_to_perms_map self !! None = None →
     fst (Bare.has_permission self request viewset st) = inr true
     ∧ fst (Bare.has_object_permission self request viewset obj st)
       = inl (ImproperlyConfigured
                "Missing GenericDjangoViewsetWithoutModelPermissions action permission for None")).
Proof.
  intros Hst Haction.
  assert (Hrun : fst (Bare.has_object_permission self request viewset obj st)
                 = match Bare.actions_to_perms_map self !! a with
                   | Some perms => inr (has_perms (user request) perms (Some obj))
                   | None => inl (ImproperlyConfigured (Bare.missing_message a))
                   end).
  { unfold Bare.has_object_permission, lift. unfold bind at 1. rewrite Haction.
    unfold bind. rewrite (bare_get_permissions_for_action_run _ _ _ Hst).
    by destruct (Bare.actions_to_perms_map self !! a). }
  split; [exact Hrun|].
  intros -> Hmissing. split.
  - unfold Bare.has_permission. by rewrite Haction.
  - by rewrite Hrun, Hmissing.
Qed.

Lemma bare_has_object_permission_witness :
  bare_consistent report_policy Bare.__init__
  ∧ fst (Bare.has_object_permission report_policy (get_by (owner_of 7))
           (post_viewset (Some "retrieve") (inr 7)) 7 Bare.__init__)
    = inr true
  ∧ fst (Bare.has_object_permission report_policy (get_by (owner_of 7))
           (post_viewset None (inr 7)) 7 Bare.__init__)
    = inl (ImproperlyConfigured
             "Missing GenericDjangoViewsetWithoutModelPermissions action permission for None").
Proof.
  assert (Hst : bare_consistent report_policy Bare.__init__) by (by left).
  split; [exact Hst|]. split.
  - by rewrite (proj1 (bare_has_object_permission report_policy (get_by (owner_of 7))
                         (post_viewset (Some "retrieve") (inr 7)) (Some "retrieve") 7
                         Bare.__init__ Hst eq_refl)).
  - exact (proj2 (proj2 (bare_has_object_permission report_policy (get_by (owner_of 7))
                           (post_viewset None (inr 7)) None 7 Bare.__init__ Hst eq_refl)
                    eq_refl eq_refl)).
Defined.

(** ** A viewset without an [action] attribute *)

(** X16: both policies read [viewset.action] in [has_object_permission]
    before anything else, so on a viewset that has no such attribute the
    object check raises [AttributeError] for every request, also an OPTIONS
    request in debug mode, and leaves the store as it was; [has_permission],
    which reads the attribute with a default, takes the action to be [None]:
    the model-less policy grants and the model-aware one grants in the
    bypass. *)
Theorem object_check_needs_action_attribute {Obj}
    (settings : Settings) (generic : Generic.Policy) (bare : Bare.Policy)
    (request : Request Obj) (viewset : ViewSet Obj) (obj : Obj)
    (st : Generic.Store) (st_bare : Bare.Store) :
  action viewset = None →
  Generic.has_object_permission settings generic request viewset obj st
  = (inl (AttributeError "action"), st)
  ∧ Bare.has_object_permission bare request viewset obj st_bare
    = (inl (AttributeError "action"), st_bare)
  ∧ Bare.has_permission bare request viewset st_bare = (inr true, st_bare)
  ∧ (options_in_debug settings request = true →
     Generic.has_permission settings generic request viewset st = (inr true, st)).
Proof.
  intros Haction.
  split; [by apply has_object_permission_without_action|].
  split.
  { unfold Bare.has_object_permission, bind, lift. by rewrite Haction. }
  split.
  { unfold Bare.has_permission. by rewrite Haction. }
  intros Hbypass. unfold Generic.has_permission. by rewrite Hbypass.
Qed.

Lemma object_check_needs_action_attribute_witness :
  let api_view : ViewSet nat :=
    {| dir_class := []; action := None; get_queryset := blog_post; get_object := inr 7 |} in
  Generic.has_object_permission in_debug no_overrides (options_by grants_everything)
    api_view 7 fresh_store
  = (inl (AttributeError "action"), fresh_store).
Proof.
  intros api_view.
  exact (proj1 (object_check_needs_action_attribute in_debug no_overrides Bare.base_class
                  (options_by grants_everything) api_view 7 fresh_store Bare.__init__
                  eq_refl)).
Defined.

(** ** GenericDjangoViewsetPermissions: when [has_permission] grants and refuses *)

(** X17: outside the bypass [has_permission] returns true only for one of
    two reasons: the principal holds the required permissions globally, or
    the action is not among the list actions [get_list_actions] returns for
    the viewset and [get_object()] returned an object. It returns false only
    when the permissions are not held globally and the action is among those
    list actions. Nothing is assumed of what is memoised as list actions. *)
Theorem has_permission_grant_reasons {Obj}
    (settings : Settings) (self : Generic.Policy) (request : Request Obj)
    (viewset : ViewSet Obj) (list_actions : gset string) (st : Generic.Store) :
  map_memo_ok self st →
  options_in_debug settings request = false →
  fst (Generic.get_list_actions viewset st) = inr list_actions →
  let a := default None (action viewset) in
  let required := fst (Generic.get_permissions_for_action self a viewset st) in
  let run := Generic.has_permission settings self request viewset st in
  (fst run = inr true
   ↔ ∃ perms, required = inr perms
              ∧ (has_perms (user request) perms None = true
                 ∨ (Generic.not_in a list_actions = true
                    ∧ ∃ obj, get_object viewset = inr obj)))
  ∧ (fst run = inr false
     ↔ ∃ perms, required = inr perms
                ∧ has_perms (user request) perms None = false
                ∧ Generic.not_in a list_actions = false).
Proof.
  intros Hst Hbypass Hset a required run. subst a required run.
  rewrite (has_permission_run_at _ _ _ _ _ _ Hst Hbypass Hset).
  destruct (fst (Generic.get_permissions_for_action _ _ _ _)) as [e|perms]; simpl.
  { split; (split; [done|]); by intros (perms & ? & _). }
  destruct (has_perms (user request) perms None) eqn:Hglobal; simpl.
  { split; split; try done.
    - intros _. exists perms. split; [done|]. by left.
    - intros (perms' & [= <-] & Hfalse & _). congruence. }
  destruct (Generic.not_in _ _) eqn:Hnot; simpl.
  - destruct (get_object viewset) as [e|obj] eqn:Hfound; split; split; try done.
    + intros (perms' & [= <-] & [Htrue|[_ [obj Hobj]]]); congruence.
    + intros (perms' & _ & _ & ?). done.
    + intros _. exists perms. split; [done|]. right. split; [done|]. by exists obj.
    + intros (perms' & _ & _ & ?). done.
  - split; split; try done.
    + intros (perms' & [= <-] & [Htrue|[? _]]); congruence.
    + intros _. by exists perms.
Qed.

Lemma has_permission_grant_reasons_witness :
  map_memo_ok audited_policy after_parent_scan
  ∧ (fst (Generic.has_permission in_production audited_policy (get_by (owner_of 7))
            (audited_viewset (Some "audit") (inr 7)) after_parent_scan) = inr true
     ↔ ∃ perms,
         fst (Generic.get_permissions_for_action audited_policy (Some "audit")
                (audited_viewset (Some "audit") (inr 7)) after_parent_scan) = inr perms
         ∧ (has_perms (owner_of 7) perms None = true
            ∨ (Generic.not_in (Some "audit") (Generic.list_actions_of_class probing_class)
               = true
               ∧ ∃ obj, get_object (audited_viewset (Some "audit") (inr 7)) = inr obj))).
Proof.
  assert (Hst : map_memo_ok audited_policy after_parent_scan) by (by left).
  split; [exact Hst|].
  exact (proj1 (has_permission_grant_reasons in_production audited_policy
                  (get_by (owner_of 7)) (audited_viewset (Some "audit") (inr 7))
                  (Generic.list_actions_of_class probing_class) after_parent_scan
                  Hst eq_refl eq_refl)).
Defined.
